(** * SKM Chambers backend: a model of [skm-chambers-backend/server.js]

    The repository holds two variants of one Express/Mongoose server.  Both
    are embedded here: the handlers as functions in a small exception and
    state monad over the two collections, the two Mongoose schemas as data
    interpreted by a model of document construction, validation and
    [save()], and the middleware chain as a dispatch function.

    What the JavaScript engine and the libraries decide, and the sources do
    not, is gathered in the record [Runtime] (date parsing, number printing,
    the casts of [_id] and [__v], error texts, what Express leaves in
    [req.body] when no parser ran, path matching); every theorem holds for
    every runtime.  What a request finds in the process (the clock, the
    generated ObjectId, the state of the connection, whether the store
    answers) is the record [ReqEnv].  JSON numbers are taken to be
    integers: the handlers only test a number against zero and hand it on.
    Response headers are not modelled. *)

From Stdlib Require Import ZArith QArith String Ascii List.
From stdpp Require Import gmap strings list sorting pretty.

Set Warnings "-register-all".

Open Scope string_scope.
Open Scope Z_scope.

(** ** JavaScript values *)

(** Values that reach the handlers: what [JSON.parse] or the urlencoded
    parser produce, and [Date] objects ([None] is an Invalid Date). *)
Inductive JSVal : Type :=
| JNull
| JBool (b : bool)
| JNum (n : Z)
| JStr (s : string)
| JArr (elems : list JSVal)
| JObj (props : list (string * JSVal))
| JDate (t : option Z).

(** [req.body]: a JavaScript object used as a map from field name to value. *)
Abbreviation Body := (gmap string JSVal).

(** Values as MongoDB stores them. *)
Inductive BVal : Type :=
| BNull
| BInt (n : Z)
| BString (s : string)
| BDate (t : Z)
| BObjectId (o : N).

#[global] Instance BVal_eq_dec : EqDecision BVal.
Proof. solve_decision. Defined.

(** A stored document. *)
Abbreviation Doc := (gmap string BVal).

Inductive ValidatorError : Type :=
| CastError
| RequiredError.

Inductive JSError : Type :=
| TypeError (reading : string)
| ValidationError (model : string) (errors : list (string * ValidatorError))
| MongooseError (operation : string)
| MongoServerError (code : Z)
| HttpError (name : string) (status : Z).

(** [error.name] *)
Definition error_name (e : JSError) : string :=
  match e with
  | TypeError _ => "TypeError"
  | ValidationError _ _ => "ValidationError"
  | MongooseError _ => "MongooseError"
  | MongoServerError _ => "MongoServerError"
  | HttpError name _ => name
  end.

(** What the engine and the libraries decide. *)
Record Runtime : Type := {
  (** [Date.parse]: the time value of a text, [None] for NaN *)
  Date_parse : string -> option Z;
  (** [Date.prototype.toString] *)
  Date_toString : option Z -> string;
  (** [Date.prototype.toISOString] of a valid date *)
  Date_toISOString : Z -> string;
  (** [Number.prototype.toString] *)
  Number_toString : Z -> string;
  (** Mongoose's date cast of a non-empty text *)
  castDate_string : string -> option Z;
  (** Mongoose's cast of a caller-supplied [_id]; [None] is a CastError *)
  castObjectId : JSVal -> option BVal;
  (** whether [id] is a settable alias of [_id] (Mongoose 8 and later), and
      which value wins when the caller's object has both keys *)
  id_setter : bool;
  both_ids : JSVal -> JSVal -> JSVal;
  (** Mongoose's cast of a caller-supplied [__v]; [None] is a CastError *)
  castNumber : JSVal -> option BVal;
  (** [error.message] *)
  error_message : JSError -> string;
  (** [req.body] when no body parser matched the request: an empty object
      in Express 4, [undefined] ([None]) in Express 5 *)
  unparsed_body : option Body;
  (** Express's test of a request path against a route path (letter case
      and a trailing slash are overlooked; the version decides the rest) *)
  route_matches : string -> string -> bool
}.

(** The last definition of a key wins, as in [JSON.parse]. *)
Fixpoint own_prop (k : string) (props : list (string * JSVal)) : option JSVal :=
  match props with
  | [] => None
  | (k', v) :: rest =>
      match own_prop k rest with
      | Some w => Some w
      | None => if String.eqb k' k then Some v else None
      end
  end.

(** [!v] is [negb (truthy v)]; [None] is [undefined]. *)
Definition truthy (v : option JSVal) : bool :=
  match v with
  | None => false
  | Some JNull => false
  | Some (JBool b) => b
  | Some (JNum n) => negb (n =? 0)
  | Some (JStr s) => negb (String.eqb s "")
  | Some (JArr _) | Some (JObj _) | Some (JDate _) => true
  end.

(** The range of time values of a [Date]. *)
Definition TimeClip (n : Z) : option Z :=
  if Z.abs n <=? 8640000000000000 then Some n else None.

Section JavaScript.
Variable rt : Runtime.

(** [String(v)]; [None] is a TypeError.  An object parsed from JSON
    prints as [[object Object]] unless an own [toString] property, which
    cannot be a function, shadows the inherited method. *)
Fixpoint ToString (v : JSVal) : option string :=
  match v with
  | JNull => Some "null"
  | JBool b => Some (if b then "true" else "false")
  | JNum n => Some (Number_toString rt n)
  | JStr s => Some s
  | JArr elems =>
      (fix join (l : list JSVal) : option string :=
         match l with
         | [] => Some ""
         | x :: rest =>
             match (match x with JNull => Some "" | _ => ToString x end) with
             | None => None
             | Some s =>
                 match rest with
                 | [] => Some s
                 | _ :: _ =>
                     match join rest with
                     | None => None
                     | Some r => Some (s ++ "," ++ r)
                     end
                 end
             end
         end) elems
  | JObj props =>
      match own_prop "toString" props with
      | Some _ => None
      | None => Some "[object Object]"
      end
  | JDate t => Some (Date_toString rt t)
  end.

(** [new Date(v)]: the time value of the new object, or the TypeError
    thrown while converting [v] to a primitive. *)
Definition new_Date (v : option JSVal) : JSError + option Z :=
  match v with
  | None => inr None
  | Some JNull => inr (Some 0)
  | Some (JBool b) => inr (Some (if b then 1 else 0))
  | Some (JNum n) => inr (TimeClip n)
  | Some (JStr s) => inr (Date_parse rt s)
  | Some (JDate t) => inr t
  | Some (JArr _ as o) | Some (JObj _ as o) =>
      match ToString o with
      | Some s => inr (Date_parse rt s)
      | None => inl (TypeError "toString")
      end
  end.

(** ** Mongoose: casting *)

(** [castString]: [None] is a CastError.  Arrays and plain objects are
    refused, except an object carrying a text [_id]. *)
Definition castString (v : JSVal) : option BVal :=
  match v with
  | JNull => Some BNull
  | JStr s => Some (BString s)
  | JNum n => Some (BString (Number_toString rt n))
  | JBool b => Some (BString (if b then "true" else "false"))
  | JDate t => Some (BString (Date_toString rt t))
  | JArr _ => None
  | JObj props =>
      match own_prop "_id" props with
      | Some (JStr s) => if String.eqb s "" then None else Some (BString s)
      | _ => None
      end
  end.

(** [castDate]: null and the empty text give null; a [Date] must be
    valid; a boolean is refused. *)
Definition castDate (v : JSVal) : option BVal :=
  match v with
  | JNull => Some BNull
  | JStr s =>
      if String.eqb s "" then Some BNull
      else BDate <$> castDate_string rt s
  | JDate t => BDate <$> t
  | JBool _ => None
  | JNum n => BDate <$> TimeClip n
  | JArr _ | JObj _ =>
      match new_Date (Some v) with
      | inr (Some t) => Some (BDate t)
      | _ => None
      end
  end.
End JavaScript.

(** ** Mongoose: schemas, documents, validation *)

Inductive SchemaType : Type :=
| SString
| SDate.

Inductive SchemaDefault : Type :=
| NoDefault
| DefaultValue (s : string)
| DefaultNow.

(** One path of a schema: [{ type, required, default }]. *)
Record SchemaPath : Type := {
  type : SchemaType;
  required : bool;
  default_ : SchemaDefault
}.

Abbreviation Schema := (list (string * SchemaPath)).

(** [enquirySchema] (lines 69-77; 374-382 in variant 2) *)
Definition enquirySchema : Schema :=
  [ ("name", {| type := SString; required := true; default_ := NoDefault |});
    ("email", {| type := SString; required := true; default_ := NoDefault |});
    ("phone", {| type := SString; required := false; default_ := NoDefault |});
    ("subject", {| type := SString; required := false; default_ := NoDefault |});
    ("message", {| type := SString; required := true; default_ := NoDefault |});
    ("type", {| type := SString; required := false;
                default_ := DefaultValue "general_enquiry" |});
    ("createdAt", {| type := SDate; required := false; default_ := DefaultNow |}) ].

(** [appointmentSchema] (lines 79-89; 384-394 in variant 2) *)
Definition appointmentSchema : Schema :=
  [ ("name", {| type := SString; required := true; default_ := NoDefault |});
    ("email", {| type := SString; required := true; default_ := NoDefault |});
    ("phone", {| type := SString; required := true; default_ := NoDefault |});
    ("preferredDate", {| type := SDate; required := true; default_ := NoDefault |});
    ("preferredTime", {| type := SString; required := true; default_ := NoDefault |});
    ("purpose", {| type := SString; required := true; default_ := NoDefault |});
    ("type", {| type := SString; required := false;
                default_ := DefaultValue "appointment_request" |});
    ("status", {| type := SString; required := false;
                  default_ := DefaultValue "pending" |});
    ("createdAt", {| type := SDate; required := false; default_ := DefaultNow |}) ].

Inductive Collection : Type :=
| Enquiries
| Appointments.

#[global] Instance Collection_eq_dec : EqDecision Collection.
Proof. solve_decision. Defined.

(** [mongoose.model(name, schema)] *)
Record Model : Type := {
  modelName : string;
  schema : Schema;
  collection : Collection
}.

Definition Enquiry : Model :=
  {| modelName := "Enquiry"; schema := enquirySchema; collection := Enquiries |}.

Definition Appointment : Model :=
  {| modelName := "Appointment"; schema := appointmentSchema;
     collection := Appointments |}.

(** What a request draws from the process while it is served: the ObjectId
    that [new Model] generates, the clock, the state of the process-wide
    Mongoose connection ([mongoose.connection.readyState], 1 is connected),
    whether the store answers the operation the request issues (Mongoose
    buffers an operation issued while the connection is down and rejects it
    if the connection stays down), and the figures [/health] reports. *)
Record ReqEnv : Type := {
  new_ObjectId : N;
  Date_now : Z;
  readyState : Z;
  store_answers : bool;
  process_uptime : Q;
  memory_rss : Z;
  memory_heapTotal : Z;
  memory_heapUsed : Z
}.

(** A document under construction: its fields and the errors recorded while
    casting, which [save()] reports. *)
Record Document : Type := {
  fields : Doc;
  cast_errors : list (string * ValidatorError)
}.

Definition set_field (k : string) (v : BVal) (d : Document) : Document :=
  {| fields := <[k := v]> (fields d); cast_errors := cast_errors d |}.

Definition invalidate (k : string) (d : Document) : Document :=
  {| fields := fields d; cast_errors := cast_errors d ++ [(k, CastError)] |}.

Section Mongoose.
Variable rt : Runtime.

Definition cast (t : SchemaType) (v : JSVal) : option BVal :=
  match t with
  | SString => castString rt v
  | SDate => castDate rt v
  end.

Definition default_value (env : ReqEnv) (d : SchemaDefault) : option BVal :=
  match d with
  | NoDefault => None
  | DefaultValue s => Some (BString s)
  | DefaultNow => Some (BDate (Date_now env))
  end.

(** A path the caller supplies is cast and set (a failed cast is recorded
    and leaves the default); a path the caller leaves out gets its default,
    if it has one. *)
Definition set_path (obj : Body) (env : ReqEnv) (d : Document)
    (p : string * SchemaPath) : Document :=
  let with_default :=
    match default_value env (default_ p.2) with
    | Some v => set_field p.1 v d
    | None => d
    end in
  match obj !! p.1 with
  | None => with_default
  | Some v =>
      match cast (type p.2) v with
      | Some bv => set_field p.1 bv d
      | None => invalidate p.1 with_default
      end
  end.

(** The value the caller's object supplies for [_id]: under the key [_id]
    or, where Mongoose has the alias, under [id]. *)
Definition supplied_id (obj : Body) : option JSVal :=
  match obj !! "_id", obj !! "id" with
  | None, None => None
  | Some v, None => Some v
  | None, Some v' => if id_setter rt then Some v' else None
  | Some v, Some v' => Some (if id_setter rt then both_ids rt v v' else v)
  end.

(** The two paths every schema has: [_id], generated unless supplied, and
    the version key [__v], 0 unless supplied. *)
Definition implicit_paths (obj : Body) (env : ReqEnv) : Document :=
  let d0 := {| fields := ∅; cast_errors := [] |} in
  let d1 :=
    match supplied_id obj with
    | None => set_field "_id" (BObjectId (new_ObjectId env)) d0
    | Some v =>
        match castObjectId rt v with
        | Some bv => set_field "_id" bv d0
        | None => invalidate "_id" d0
        end
    end in
  match obj !! "__v" with
  | None => set_field "__v" (BInt 0) d1
  | Some v =>
      match castNumber rt v with
      | Some bv => set_field "__v" bv d1
      | None => invalidate "__v" d1
      end
  end.

(** [new M(obj)]; paths outside the schema are dropped (strict mode). *)
Definition Model_new (M : Model) (obj : Body) (env : ReqEnv) : Document :=
  foldl (set_path obj env) (implicit_paths obj env) (schema M).

(** The [required] validator: a non-empty text, or a date. *)
Definition checkRequired (t : SchemaType) (v : option BVal) : bool :=
  match t, v with
  | SString, Some (BString s) => negb (String.eqb s "")
  | SDate, Some (BDate _) => true
  | _, _ => false
  end.

Definition required_errors (sch : Schema) (d : Document)
    : list (string * ValidatorError) :=
  omap (fun p : string * SchemaPath =>
          if required p.2
             && negb (bool_decide (p.1 ∈ (cast_errors d).*1))
             && negb (checkRequired (type p.2) (fields d !! p.1))
          then Some (p.1, RequiredError) else None) sch.

(** [doc.validate()]: the error [save()] rejects with, if any. *)
Definition validate (M : Model) (d : Document) : option JSError :=
  match (cast_errors d ++ required_errors (schema M) d)%list with
  | [] => None
  | errs => Some (ValidationError (modelName M) errs)
  end.
End Mongoose.

(** ** The store and the handler monad *)

(** The two collections, oldest document first. *)
Record Store : Type := {
  enquiries : list Doc;
  appointments : list Doc
}.

Definition docs (c : Collection) (s : Store) : list Doc :=
  match c with
  | Enquiries => enquiries s
  | Appointments => appointments s
  end.

Definition push_doc (c : Collection) (d : Doc) (s : Store) : Store :=
  match c with
  | Enquiries =>
      {| enquiries := enquiries s ++ [d]; appointments := appointments s |}
  | Appointments =>
      {| enquiries := enquiries s; appointments := appointments s ++ [d] |}
  end.

(** Operations issued to the store. *)
Inductive StoreOp : Type :=
| InsertOne (c : Collection) (d : Doc)
| Find (c : Collection).

Inductive LogArg : Type :=
| LStr (s : string)
| LBody (b : option Body)
| LVal (v : option BVal)
| LErr (e : JSError).

Inductive LogLine : Type :=
| StdOut (args : list LogArg)
| StdErr (args : list LogArg).

Record World : Type := {
  store : Store;
  ops : list StoreOp;
  console : list LogLine
}.

(** A computation either throws or returns, and changes the world. *)
Definition M (A : Type) : Type := World -> (JSError + A) * World.

#[global] Instance M_ret : MRet M := fun A a w => (inr a, w).

#[global] Instance M_bind : MBind M := fun A B f m w =>
  match m w with
  | (inl e, w') => (inl e, w')
  | (inr a, w') => f a w'
  end.

Definition throw {A} (e : JSError) : M A := fun w => (inl e, w).

(** [try { m } catch (error) { h error }] *)
Definition try_catch {A} (m : M A) (h : JSError -> M A) : M A := fun w =>
  match m w with
  | (inl e, w') => h e w'
  | (inr a, w') => (inr a, w')
  end.

Definition lift {A} (r : JSError + A) : M A := fun w => (r, w).

Definition console_log (args : list LogArg) : M unit := fun w =>
  (inr tt, {| store := store w; ops := ops w;
              console := console w ++ [StdOut args] |}).

Definition console_error (args : list LogArg) : M unit := fun w =>
  (inr tt, {| store := store w; ops := ops w;
              console := console w ++ [StdErr args] |}).

(** [o.k] for the request body [o]: reading a property of [undefined]
    throws. *)
Definition member (o : option Body) (k : string) : M (option JSVal) :=
  match o with
  | None => throw (TypeError k)
  | Some b => mret (b !! k)
  end.

(** ** The store driver *)

Definition has_id (d : Doc) (l : list Doc) : bool :=
  bool_decide (d !! "_id" ∈ (fun x : Doc => x !! "_id") <$> l).

(** An operation the store does not answer is rejected.  MongoDB's unique
    index on [_id] refuses a second document with an id already in the
    collection (error 11000). *)
Definition insertOne (env : ReqEnv) (c : Collection) (d : Doc) : M unit := fun w =>
  let issued := (ops w ++ [InsertOne c d])%list in
  if negb (store_answers env) then
    (inl (MongooseError "insertOne"),
     {| store := store w; ops := issued; console := console w |})
  else if has_id d (docs c (store w)) then
    (inl (MongoServerError 11000),
     {| store := store w; ops := issued; console := console w |})
  else
    (inr tt,
     {| store := push_doc c d (store w); ops := issued; console := console w |}).

(** MongoDB's comparison of two values of a sort key: by type first (null
    and a missing field, numbers, text, identifiers, dates), then by value
    for numbers and dates. *)
Definition bson_rank (v : option BVal) : Z :=
  match v with
  | None | Some BNull => 2
  | Some (BInt _) => 3
  | Some (BString _) => 4
  | Some (BObjectId _) => 8
  | Some (BDate _) => 10
  end.

Definition bson_value (v : option BVal) : Z :=
  match v with
  | Some (BInt n) => n
  | Some (BDate t) => t
  | _ => 0
  end.

Definition bson_le (a b : option BVal) : Prop :=
  bson_rank a < bson_rank b
  \/ (bson_rank a = bson_rank b /\ bson_value a <= bson_value b).

(** [a] may come before [b] under [sort({ createdAt: -1 })]. *)
Definition createdAt_desc (a b : Doc) : Prop :=
  bson_le (b !! "createdAt") (a !! "createdAt").

#[global] Instance createdAt_desc_dec : RelDecision createdAt_desc.
Proof. intros a b. unfold createdAt_desc, bson_le. apply _. Defined.

(** [M.find().sort({ createdAt: -1 })] *)
Definition find_sort_createdAt_desc (env : ReqEnv) (c : Collection)
    : M (list Doc) := fun w =>
  let issued := (ops w ++ [Find c])%list in
  if negb (store_answers env) then
    (inl (MongooseError "find"),
     {| store := store w; ops := issued; console := console w |})
  else
    (inr (merge_sort createdAt_desc (docs c (store w))),
     {| store := store w; ops := issued; console := console w |}).

(** [doc.save()]: validation first, then the insert. *)
Definition save (env : ReqEnv) (Mo : Model) (d : Document) : M unit :=
  match validate Mo d with
  | Some e => throw e
  | None => insertOne env (collection Mo) (fields d)
  end.

(** ** Responses *)

(** The JSON a handler sends. *)
Inductive RVal : Type :=
| RStr (s : string)
| RNum (n : Z)
| RReal (q : Q)
| RBool (b : bool)
| RDate (t : Z)
| RBson (v : option BVal)
| RObj (props : list (string * RVal))
| RDocs (l : list Doc).

Record Response : Type := {
  status : Z;
  body : option RVal
}.

(** [res.status(code).json(v)] *)
Definition res_json (code : Z) (v : RVal) : Response :=
  {| status := code; body := Some v |}.

(** The property [k] of a response object. *)
Definition rget (k : string) (v : option RVal) : option RVal :=
  match v with
  | Some (RObj props) => snd <$> List.find (fun p => String.eqb (fst p) k) props
  | _ => None
  end.

(** ** Requests and configuration *)

(** [req.method]; [OtherMethod] is a method outside this list (CONNECT,
    TRACE, ...), with its name. *)
Inductive Method : Type :=
| GET | POST | PUT | DELETE | OPTIONS | HEAD | PATCH
| OtherMethod (name : string).

Definition method_name (m : Method) : string :=
  match m with
  | GET => "GET" | POST => "POST" | PUT => "PUT" | DELETE => "DELETE"
  | OPTIONS => "OPTIONS" | HEAD => "HEAD" | PATCH => "PATCH"
  | OtherMethod name => name
  end.

(** What the body parsers made of the request: no parser ran, a parsed
    object, or an error passed to [next] (malformed JSON, a body over the
    size limit). *)
Inductive BodyParse : Type :=
| NoBody
| Parsed (b : Body)
| Rejected (e : JSError).

(** A request: [body_length] is the size of its body in bytes, [parsed]
    what the JSON and urlencoded parsers make of that body. *)
Record Request : Type := {
  method : Method;
  url : string;
  origin : option string;
  body_length : N;
  parsed : BodyParse
}.

(** [express.json({ limit })] and [express.urlencoded({ limit })]: a body
    over the limit is refused with a 413 error. *)
Definition body_parsers (limit : N) (req : Request) : BodyParse :=
  if (limit <? body_length req)%N then
    Rejected (HttpError "PayloadTooLargeError" 413)
  else parsed req.

(** [req.path]: the URL up to the query string. *)
Fixpoint pathname (u : string) : string :=
  match u with
  | EmptyString => EmptyString
  | String c rest => if Ascii.eqb c "?" then EmptyString else String c (pathname rest)
  end.

(** [process.env] *)
Abbreviation ProcessEnv := (gmap string string).

(** An environment variable or a header is falsy when unset or empty. *)
Definition env_truthy (v : option string) : bool :=
  match v with
  | Some s => negb (String.eqb s "")
  | None => false
  end.

(** [v || dflt] *)
Definition env_or (v : option string) (dflt : string) : string :=
  if env_truthy v then default "" v else dflt.

(** The outcome of start-up as far as the store is concerned. *)
Inductive Startup : Type :=
| process_exit (code : Z)
| mongoose_connect (uri : string).

(** [Math.round(bytes / 1024 / 1024)]: the divisions are exact in binary
    floating point, and [Math.round] rounds half up. *)
Definition Math_round_MB (bytes : Z) : Z := (bytes + 524288) / 1048576.

(** A route registered with [app.get] also serves [HEAD]. *)
Definition method_handles (route_method req_method : Method) : bool :=
  match route_method, req_method with
  | GET, GET | GET, HEAD | POST, POST => true
  | _, _ => false
  end.


(** ** Variant 1: the production server *)

Module V1.
Section Server.
Variable rt : Runtime.
Variable process_env : ProcessEnv.

(** [isProduction] (line 9) *)
Definition isProduction : bool :=
  bool_decide (process_env !! "NODE_ENV" = Some "production").

(** [getMongoURI] (lines 27-42) *)
Definition getMongoURI : Startup :=
  if env_truthy (process_env !! "MONGODB_URI") then
    mongoose_connect (default "" (process_env !! "MONGODB_URI"))
  else if negb isProduction then
    mongoose_connect "mongodb://127.0.0.1:27017/skm-chambers"
  else process_exit 1.

(** [POST /api/enquiry] (lines 103-140) *)
Definition post_enquiry (req_body : option Body) (env : ReqEnv) : M Response :=
  try_catch
    (console_log [LStr "📋 Enquiry form data received"];;
     name ← member req_body "name";
     email ← member req_body "email";
     message ← member req_body "message";
     if negb (truthy name) || negb (truthy email) || negb (truthy message) then
       mret (res_json 400 (RObj
         [("error", RStr "Missing required fields: name, email, and message are required")]))
     else
       let enquiry := Model_new rt Enquiry (default ∅ req_body) env in
       save env Enquiry enquiry;;
       console_log [LStr "✅ Enquiry saved with ID:"; LVal (fields enquiry !! "_id")];;
       mret (res_json 201 (RObj
         [("success", RBool true);
          ("message", RStr "Enquiry submitted successfully");
          ("id", RBson (fields enquiry !! "_id"))])))
    (fun error =>
       console_error [LStr "❌ Error saving enquiry:"; LStr (error_message rt error)];;
       if String.eqb (error_name error) "ValidationError" then
         mret (res_json 400 (RObj
           [("error", RStr "Validation error");
            ("details", RStr (error_message rt error))]))
       else
         mret (res_json 500 (RObj
           [("error", RStr "Failed to submit enquiry");
            ("details", RStr (error_message rt error))]))).

(** [POST /api/appointment] (lines 143-187) *)
Definition post_appointment (req_body : option Body) (env : ReqEnv) : M Response :=
  try_catch
    (console_log [LStr "📅 Appointment form data received"];;
     name ← member req_body "name";
     email ← member req_body "email";
     phone ← member req_body "phone";
     preferredDate ← member req_body "preferredDate";
     preferredTime ← member req_body "preferredTime";
     purpose ← member req_body "purpose";
     if negb (truthy name) || negb (truthy email) || negb (truthy phone)
        || negb (truthy preferredDate) || negb (truthy preferredTime)
        || negb (truthy purpose) then
       mret (res_json 400 (RObj [("error", RStr "Missing required fields")]))
     else
       date ← lift (new_Date rt preferredDate);
       let appointmentData :=
         <["preferredDate" := JDate date]> (default ∅ req_body) in
       let appointment := Model_new rt Appointment appointmentData env in
       save env Appointment appointment;;
       console_log [LStr "✅ Appointment saved with ID:";
                    LVal (fields appointment !! "_id")];;
       mret (res_json 201 (RObj
         [("success", RBool true);
          ("message", RStr "Appointment request submitted successfully");
          ("id", RBson (fields appointment !! "_id"))])))
    (fun error =>
       console_error [LStr "❌ Error saving appointment:";
                      LStr (error_message rt error)];;
       if String.eqb (error_name error) "ValidationError" then
         mret (res_json 400 (RObj
           [("error", RStr "Validation error");
            ("details", RStr (error_message rt error))]))
       else
         mret (res_json 500 (RObj
           [("error", RStr "Failed to submit appointment request");
            ("details", RStr (error_message rt error))]))).

(** [GET /api/enquiries] (lines 190-205) *)
Definition get_enquiries (env : ReqEnv) : M Response :=
  try_catch
    (enquiries ← find_sort_createdAt_desc env Enquiries;
     mret (res_json 200 (RObj
       [("success", RBool true);
        ("count", RNum (Z.of_nat (length enquiries)));
        ("data", RDocs enquiries)])))
    (fun error =>
       console_error [LStr "❌ Error fetching enquiries:"; LErr error];;
       mret (res_json 500 (RObj
         [("success", RBool false);
          ("error", RStr "Failed to fetch enquiries")]))).

(** [GET /api/appointments] (lines 208-223) *)
Definition get_appointments (env : ReqEnv) : M Response :=
  try_catch
    (appointments ← find_sort_createdAt_desc env Appointments;
     mret (res_json 200 (RObj
       [("success", RBool true);
        ("count", RNum (Z.of_nat (length appointments)));
        ("data", RDocs appointments)])))
    (fun error =>
       console_error [LStr "❌ Error fetching appointments:"; LErr error];;
       mret (res_json 500 (RObj
         [("success", RBool false);
          ("error", RStr "Failed to fetch appointments")]))).

(** [GET /health] (lines 226-248) *)
Definition health (env : ReqEnv) : M Response :=
  let dbStatus :=
    if readyState env =? 1 then "connected" else "disconnected" in
  mret (res_json 200 (RObj
    [("status", RStr "OK");
     ("environment", RStr (env_or (process_env !! "NODE_ENV") "development"));
     ("timestamp", RStr (Date_toISOString rt (Date_now env)));
     ("uptime", RReal (process_uptime env));
     ("database", RStr dbStatus);
     ("memory", RObj
        [("rss", RStr (Number_toString rt (Math_round_MB (memory_rss env)) ++ " MB"));
         ("heapTotal",
          RStr (Number_toString rt (Math_round_MB (memory_heapTotal env)) ++ " MB"));
         ("heapUsed",
          RStr (Number_toString rt (Math_round_MB (memory_heapUsed env)) ++ " MB"))]);
     ("endpoints", RObj
        [("enquiry", RStr "/api/enquiry");
         ("appointment", RStr "/api/appointment");
         ("enquiries", RStr "/api/enquiries");
         ("appointments", RStr "/api/appointments")])])).

(** [GET /] (lines 251-270) *)
Definition root : M Response :=
  mret (res_json 200 (RObj
    [("message", RStr "SKM Chambers API");
     ("version", RStr "1.0.0");
     ("environment", RStr (env_or (process_env !! "NODE_ENV") "development"));
     ("deployed", RStr (if isProduction then "Yes" else "No (Local Development)"));
     ("endpoints", RObj
        [("health", RStr "/health");
         ("submitEnquiry", RStr "POST /api/enquiry");
         ("submitAppointment", RStr "POST /api/appointment");
         ("getEnquiries", RStr "GET /api/enquiries");
         ("getAppointments", RStr "GET /api/appointments")]);
     ("cors", RObj
        [("allowedOrigin",
          RStr (if isProduction
                then "https://courageous-salamander-4e7551.netlify.app"
                else "* (All origins - development only)"))])])).

Definition availableEndpoints : RVal :=
  RObj [("root", RStr "GET /");
        ("health", RStr "GET /health");
        ("submitEnquiry", RStr "POST /api/enquiry");
        ("submitAppointment", RStr "POST /api/appointment")].

(** The 404 handler (lines 273-283) *)
Definition not_found : M Response :=
  mret (res_json 404 (RObj
    [("error", RStr "Endpoint not found");
     ("availableEndpoints", availableEndpoints)])).

(** The error-handling middleware (lines 286-292) *)
Definition error_handler (err : JSError) : M Response :=
  console_error [LStr "🔥 Server error:"; LErr err];;
  mret (res_json 500 (RObj
    [("error", RStr "Internal server error");
     ("message",
      RStr (if bool_decide (process_env !! "NODE_ENV" = Some "development")
            then error_message rt err else "Something went wrong"))])).

Definition handles (m : Method) (route : string) (req : Request) : bool :=
  method_handles m (method req) && route_matches rt route (pathname (url req)).

(** [express.json({ limit: '10mb' })] (lines 23-24) *)
Definition limit : N := 10485760.

(** The application (lines 20-24, 95-98 and the routes in order): [cors]
    answers every [OPTIONS] request itself (a preflight, 204 with no
    body); an error of the body parsers goes to the error handler; then the
    request log, the routes in order, the 404. *)
Definition app (req : Request) (env : ReqEnv) : M Response :=
  match method req with
  | OPTIONS => mret {| status := 204; body := None |}
  | _ =>
      match body_parsers limit req with
      | Rejected err => error_handler err
      | (NoBody | Parsed _) as p =>
          let req_body :=
            match p with Parsed b => Some b | _ => unparsed_body rt end in
          console_log
            [LStr ("📥 " ++ Date_toISOString rt (Date_now env) ++ " - "
                   ++ method_name (method req) ++ " " ++ url req
                   ++ " - Origin: " ++ env_or (origin req) "unknown")];;
          if handles POST "/api/enquiry" req then post_enquiry req_body env
          else if handles POST "/api/appointment" req then
            post_appointment req_body env
          else if handles GET "/api/enquiries" req then get_enquiries env
          else if handles GET "/api/appointments" req then get_appointments env
          else if handles GET "/health" req then health env
          else if handles GET "/" req then root
          else not_found
      end
  end.
End Server.
End V1.

(** ** Variant 2: the development server *)

Module V2.
Section Server.
Variable rt : Runtime.
Variable process_env : ProcessEnv.

(** [mongoose.connect(process.env.MONGODB_URI || '...')] (line 363) *)
Definition connect : Startup :=
  mongoose_connect
    (env_or (process_env !! "MONGODB_URI") "mongodb://localhost:27017/skm-chambers").

(** [POST /api/enquiry] (lines 408-445) *)
Definition post_enquiry (req_body : option Body) (env : ReqEnv) : M Response :=
  try_catch
    (console_log [LStr "📋 Enquiry form data:"; LBody req_body];;
     name ← member req_body "name";
     email ← member req_body "email";
     message ← member req_body "message";
     if negb (truthy name) || negb (truthy email) || negb (truthy message) then
       mret (res_json 400 (RObj
         [("error", RStr "Missing required fields: name, email, and message are required")]))
     else
       let enquiry := Model_new rt Enquiry (default ∅ req_body) env in
       save env Enquiry enquiry;;
       console_log [LStr "✅ Enquiry saved with ID:"; LVal (fields enquiry !! "_id")];;
       mret (res_json 201 (RObj
         [("success", RBool true);
          ("message", RStr "Enquiry submitted successfully");
          ("id", RBson (fields enquiry !! "_id"))])))
    (fun error =>
       console_error [LStr "❌ Error saving enquiry:"; LStr (error_message rt error)];;
       if String.eqb (error_name error) "ValidationError" then
         mret (res_json 400 (RObj
           [("error", RStr "Validation error");
            ("details", RStr (error_message rt error))]))
       else
         mret (res_json 500 (RObj
           [("error", RStr "Failed to submit enquiry");
            ("details", RStr (error_message rt error))]))).

(** [POST /api/appointment] (lines 448-492) *)
Definition post_appointment (req_body : option Body) (env : ReqEnv) : M Response :=
  try_catch
    (console_log [LStr "📅 Appointment form data:"; LBody req_body];;
     name ← member req_body "name";
     email ← member req_body "email";
     phone ← member req_body "phone";
     preferredDate ← member req_body "preferredDate";
     preferredTime ← member req_body "preferredTime";
     purpose ← member req_body "purpose";
     if negb (truthy name) || negb (truthy email) || negb (truthy phone)
        || negb (truthy preferredDate) || negb (truthy preferredTime)
        || negb (truthy purpose) then
       mret (res_json 400 (RObj [("error", RStr "Missing required fields")]))
     else
       date ← lift (new_Date rt preferredDate);
       let appointmentData :=
         <["preferredDate" := JDate date]> (default ∅ req_body) in
       let appointment := Model_new rt Appointment appointmentData env in
       save env Appointment appointment;;
       console_log [LStr "✅ Appointment saved with ID:";
                    LVal (fields appointment !! "_id")];;
       mret (res_json 201 (RObj
         [("success", RBool true);
          ("message", RStr "Appointment request submitted successfully");
          ("id", RBson (fields appointment !! "_id"))])))
    (fun error =>
       console_error [LStr "❌ Error saving appointment:";
                      LStr (error_message rt error)];;
       if String.eqb (error_name error) "ValidationError" then
         mret (res_json 400 (RObj
           [("error", RStr "Validation error");
            ("details", RStr (error_message rt error))]))
       else
         mret (res_json 500 (RObj
           [("error", RStr "Failed to submit appointment request");
            ("details", RStr (error_message rt error))]))).

(** [GET /api/enquiries] (lines 495-510) *)
Definition get_enquiries (env : ReqEnv) : M Response :=
  try_catch
    (enquiries ← find_sort_createdAt_desc env Enquiries;
     mret (res_json 200 (RObj
       [("success", RBool true);
        ("count", RNum (Z.of_nat (length enquiries)));
        ("data", RDocs enquiries)])))
    (fun error =>
       console_error [LStr "❌ Error fetching enquiries:"; LErr error];;
       mret (res_json 500 (RObj
         [("success", RBool false);
          ("error", RStr "Failed to fetch enquiries")]))).

(** [GET /api/appointments] (lines 513-528) *)
Definition get_appointments (env : ReqEnv) : M Response :=
  try_catch
    (appointments ← find_sort_createdAt_desc env Appointments;
     mret (res_json 200 (RObj
       [("success", RBool true);
        ("count", RNum (Z.of_nat (length appointments)));
        ("data", RDocs appointments)])))
    (fun error =>
       console_error [LStr "❌ Error fetching appointments:"; LErr error];;
       mret (res_json 500 (RObj
         [("success", RBool false);
          ("error", RStr "Failed to fetch appointments")]))).

(** [GET /health] (lines 531-545) *)
Definition health (env : ReqEnv) : M Response :=
  let dbStatus :=
    if readyState env =? 1 then "connected" else "disconnected" in
  mret (res_json 200 (RObj
    [("status", RStr "OK");
     ("timestamp", RDate (Date_now env));
     ("database", RStr dbStatus);
     ("endpoints", RObj
        [("enquiry", RStr "/api/enquiry");
         ("appointment", RStr "/api/appointment");
         ("enquiries", RStr "/api/enquiries");
         ("appointments", RStr "/api/appointments")])])).

(** [GET /] (lines 548-561) *)
Definition root : M Response :=
  mret (res_json 200 (RObj
    [("message", RStr "SKM Chambers API");
     ("version", RStr "1.0.0");
     ("endpoints", RObj
        [("health", RStr "/health");
         ("submitEnquiry", RStr "POST /api/enquiry");
         ("submitAppointment", RStr "POST /api/appointment");
         ("getEnquiries", RStr "GET /api/enquiries");
         ("getAppointments", RStr "GET /api/appointments")]);
     ("documentation", RStr "See /health for detailed status")])).

Definition availableEndpoints : RVal :=
  RObj [("root", RStr "GET /");
        ("health", RStr "GET /health");
        ("submitEnquiry", RStr "POST /api/enquiry");
        ("submitAppointment", RStr "POST /api/appointment")].

(** The 404 handler (lines 564-574) *)
Definition not_found : M Response :=
  mret (res_json 404 (RObj
    [("error", RStr "Endpoint not found");
     ("availableEndpoints", availableEndpoints)])).

(** The error-handling middleware (lines 577-583) *)
Definition error_handler (err : JSError) : M Response :=
  console_error [LStr "🔥 Server error:"; LErr err];;
  mret (res_json 500 (RObj
    [("error", RStr "Internal server error");
     ("message",
      RStr (if bool_decide (process_env !! "NODE_ENV" = Some "development")
            then error_message rt err else "Something went wrong"))])).

Definition handles (m : Method) (route : string) (req : Request) : bool :=
  method_handles m (method req) && route_matches rt route (pathname (url req)).

(** [express.json()] (lines 359-360): the default limit, 100kb *)
Definition limit : N := 102400.

(** The application; the middleware chain is that of variant 1 with the
    default body limit, and the request log leaves out the origin. *)
Definition app (req : Request) (env : ReqEnv) : M Response :=
  match method req with
  | OPTIONS => mret {| status := 204; body := None |}
  | _ =>
      match body_parsers limit req with
      | Rejected err => error_handler err
      | (NoBody | Parsed _) as p =>
          let req_body :=
            match p with Parsed b => Some b | _ => unparsed_body rt end in
          console_log
            [LStr ("📥 " ++ Date_toISOString rt (Date_now env) ++ " - "
                   ++ method_name (method req) ++ " " ++ url req)];;
          if handles POST "/api/enquiry" req then post_enquiry req_body env
          else if handles POST "/api/appointment" req then
            post_appointment req_body env
          else if handles GET "/api/enquiries" req then get_enquiries env
          else if handles GET "/api/appointments" req then get_appointments env
          else if handles GET "/health" req then health env
          else if handles GET "/" req then root
          else not_found
      end
  end.
End Server.
End V2.

(** ** A runtime and a store to evaluate the model on examples *)

(** It knows one date text, prints numbers in decimal, refuses every
    caller-supplied [_id] and [__v], leaves an empty object in [req.body]
    and compares paths exactly. *)
Definition test_runtime : Runtime :=
  {| Date_parse := fun s =>
       if String.eqb s "2024-01-15" then Some 1705276800000 else None;
     Date_toString := fun _ => "Mon Jan 15 2024 00:00:00 GMT+0000";
     Date_toISOString := fun _ => "2024-01-15T00:00:00.000Z";
     Number_toString := pretty;
     castDate_string := fun s =>
       if String.eqb s "2024-01-15" then Some 1705276800000 else None;
     castObjectId := fun _ => None;
     id_setter := true;
     both_ids := fun _ v => v;
     castNumber := fun _ => None;
     error_message := error_name;
     unparsed_body := Some ∅;
     route_matches := String.eqb |}.

(** A request served while the store is connected and answers. *)
Definition test_env (oid : N) (now : Z) : ReqEnv :=
  {| new_ObjectId := oid; Date_now := now; readyState := 1;
     store_answers := true; process_uptime := 0%Q;
     memory_rss := 0; memory_heapTotal := 0; memory_heapUsed := 0 |}.

Definition empty_store : Store :=
  {| enquiries := []; appointments := [] |}.

Definition start (s : Store) : World :=
  {| store := s; ops := []; console := [] |}.

Definition example_enquiry : Body :=
  {[ "name" := JStr "A"; "email" := JStr "a@x.com"; "message" := JStr "hi" ]}.

(** ** Vocabulary of the properties *)

(** A value the handlers' [!v] test takes as missing: absent, null, the
    empty text, zero or false. *)
Definition falsy (v : option JSVal) : Prop := truthy v = false.

(** The handler answers 400 and leaves the store alone: no document is
    added and no operation is issued. *)
Definition rejects_400 (h : M Response) (w : World) : Prop :=
  exists resp, (h w).1 = inr resp /\ status resp = 400
    /\ store (h w).2 = store w /\ ops (h w).2 = ops w.


(** The value a schema path holds after [set_path], given the one before,
    and the error [set_path] records for it. *)
Definition path_value (rt : Runtime) (obj : Body) (env : ReqEnv)
    (p : string * SchemaPath) (old : option BVal) : option BVal :=
  let dflt :=
    match default_value env (default_ p.2) with
    | Some v => Some v
    | None => old
    end in
  match obj !! p.1 with
  | None => dflt
  | Some v =>
      match cast rt (type p.2) v with
      | Some bv => Some bv
      | None => dflt
      end
  end.


(** The success responses of the create and list handlers. *)
Definition created_response (message : string) (id : option BVal) : Response :=
  res_json 201 (RObj
    [("success", RBool true); ("message", RStr message); ("id", RBson id)]).

Definition list_response (data : list Doc) : Response :=
  res_json 200 (RObj
    [("success", RBool true);
     ("count", RNum (Z.of_nat (length data)));
     ("data", RDocs data)]).



(** An enquiry whose sender sets [createdAt] to the epoch. *)
Definition backdated_enquiry : Body :=
  <["createdAt" := JNum 0]> example_enquiry.

Definition after_first : World :=
  (V1.post_enquiry test_runtime (Some example_enquiry) (test_env 1 1000)
     (start empty_store)).2.

Definition after_second : World :=
  (V1.post_enquiry test_runtime (Some backdated_enquiry) (test_env 2 2000)
     after_first).2.

Definition first_doc : Doc :=
  {[ "_id" := BObjectId 1; "__v" := BInt 0; "name" := BString "A";
     "email" := BString "a@x.com"; "message" := BString "hi";
     "type" := BString "general_enquiry"; "createdAt" := BDate 1000 ]}.

Definition second_doc : Doc :=
  {[ "_id" := BObjectId 2; "__v" := BInt 0; "name" := BString "A";
     "email" := BString "a@x.com"; "message" := BString "hi";
     "type" := BString "general_enquiry"; "createdAt" := BDate 0 ]}.

(** [b] comes before [a] in [data]. *)
Definition listed_before (b a : Doc) (data : list Doc) : Prop :=
  exists l1 l2 l3, data = (l1 ++ b :: l2 ++ a :: l3)%list.

(** Both documents carry a date in [createdAt], and [a]'s is the earlier. *)
Definition created_earlier (a b : Doc) : Prop :=
  exists ta tb, a !! "createdAt" = Some (BDate ta)
    /\ b !! "createdAt" = Some (BDate tb) /\ ta < tb.

(** The list handler [get] answers 200 with all documents of collection
    [c], sorted by [createdAt] descending. *)
Definition lists_newest_first (get : M Response) (c : Collection) (w : World)
    : Prop :=
  exists data, (get w).1 = inr (list_response data)
    /\ data ≡ₚ docs c (store w)
    /\ StronglySorted createdAt_desc data
    /\ forall a b, a ∈ docs c (store w) -> b ∈ docs c (store w) ->
         created_earlier a b -> listed_before b a data.

(** The 400 response of a create handler for the Mongoose error [e]. *)
Definition validation_error_response (rt : Runtime) (e : JSError) : Response :=
  res_json 400 (RObj
    [("error", RStr "Validation error");
     ("details", RStr (error_message rt e))]).


Definition appointment_fields : list string :=
  ["name"; "email"; "phone"; "preferredDate"; "preferredTime"; "purpose"].



(** ** Serving a sequence of requests *)

Inductive Variant : Type :=
| Production
| Development.

Definition app_of (v : Variant) (rt : Runtime) (process_env : ProcessEnv)
    : Request -> ReqEnv -> M Response :=
  match v with
  | Production => V1.app rt process_env
  | Development => V2.app rt process_env
  end.

(** The world after one request, and after a sequence of them. *)
Definition serve (v : Variant) (rt : Runtime) (process_env : ProcessEnv)
    (w : World) (r : Request * ReqEnv) : World :=
  (app_of v rt process_env r.1 r.2 w).2.


Definition serve_all (v : Variant) (rt : Runtime) (process_env : ProcessEnv)
    (rs : list (Request * ReqEnv)) (w : World) : World :=
  foldl (serve v rt process_env) w rs.

(** [req.body] as the handlers see it. *)
Definition req_body_of (rt : Runtime) (req : Request) : option Body :=
  match parsed req with
  | Parsed b => Some b
  | NoBody => unparsed_body rt
  | Rejected _ => None
  end.

(** The ids of the documents of a collection. *)
Definition ids (l : list Doc) : list (option BVal) :=
  (fun d : Doc => d !! "_id") <$> l.

(** The id and the creation time of [d] are the server's wherever the
    request body [o] does not supply them. *)
Definition server_assigned (o : option Body) (env : ReqEnv) (d : Doc) : Prop :=
  exists b, o = Some b
    /\ (b !! "_id" = None -> b !! "id" = None ->
        d !! "_id" = Some (BObjectId (new_ObjectId env)))
    /\ (b !! "createdAt" = None ->
        d !! "createdAt" = Some (BDate (Date_now env))).

(** What a handler may do to the store: nothing, or append one document
    whose id is not yet in its collection. *)
Definition appends (o : option Body) (env : ReqEnv) (s s' : Store) : Prop :=
  s' = s
  \/ exists c d, s' = push_doc c d s
       /\ has_id d (docs c s) = false
       /\ server_assigned o env d.

(** An enquiry posted through the whole application. *)
Definition post_request (b : Body) : Request :=
  {| method := POST; url := "/api/enquiry"; origin := None;
     body_length := 64; parsed := Parsed b |}.

Definition backdated_world : World :=
  serve Production test_runtime ∅ (start empty_store)
    (post_request backdated_enquiry, test_env 2 2000).


Definition production_env : ProcessEnv := {[ "NODE_ENV" := "production" ]}.




Definition unknown_page : Request :=
  {| method := GET; url := "/nope"; origin := None; body_length := 0;
     parsed := NoBody |}.


(** The list handler answers 500, or 200 with [count] the length of
    [data]. *)
Definition count_is_length (h : M Response) (w : World) : Prop :=
  exists resp, (h w).1 = inr resp
    /\ (status resp = 500
        \/ (status resp = 200
            /\ exists data,
                 rget "data" (body resp) = Some (RDocs data)
                 /\ rget "count" (body resp)
                    = Some (RNum (Z.of_nat (length data))))).


(** ** Vocabulary of the further properties *)

Definition enquiry_fields : list string := ["name"; "email"; "message"].

(** The 500 response of a create handler whose [catch] received [e]. *)
Definition failure_response (rt : Runtime) (what : string) (e : JSError)
    : Response :=
  res_json 500 (RObj
    [("error", RStr what); ("details", RStr (error_message rt e))]).


(** The three ways [post] ends once the handler's own check has passed and
    [obj] is handed to [new Mo]: the schema refuses the document (400,
    before any store operation), the insert fails (500, nothing stored), or
    the document is stored (201). *)
Definition saved_or_refused (rt : Runtime) (Mo : Model) (what message : string)
    (post : M Response) (obj : Body) (env : ReqEnv) (w : World) : Prop :=
  (exists e,
     validate Mo (Model_new rt Mo obj env) = Some e
     /\ (post w).1 = inr (validation_error_response rt e)
     /\ store (post w).2 = store w
     /\ ops (post w).2 = ops w)
  \/ (validate Mo (Model_new rt Mo obj env) = None
      /\ (store_answers env = false
          \/ has_id (fields (Model_new rt Mo obj env))
               (docs (collection Mo) (store w)) = true)
      /\ (exists e, (post w).1 = inr (failure_response rt what e))
      /\ store (post w).2 = store w
      /\ ops (post w).2
         = (ops w ++ [InsertOne (collection Mo)
                        (fields (Model_new rt Mo obj env))])%list)
  \/ (validate Mo (Model_new rt Mo obj env) = None
      /\ store_answers env = true
      /\ has_id (fields (Model_new rt Mo obj env))
           (docs (collection Mo) (store w)) = false
      /\ (post w).1
         = inr (created_response message
                  (fields (Model_new rt Mo obj env) !! "_id"))
      /\ store (post w).2
         = push_doc (collection Mo) (fields (Model_new rt Mo obj env)) (store w)
      /\ ops (post w).2
         = (ops w ++ [InsertOne (collection Mo)
                        (fields (Model_new rt Mo obj env))])%list).

(** A request served while the store does not answer. *)
Definition offline_env (oid : N) (now : Z) : ReqEnv :=
  {| new_ObjectId := oid; Date_now := now; readyState := 0;
     store_answers := false; process_uptime := 0%Q;
     memory_rss := 0; memory_heapTotal := 0; memory_heapUsed := 0 |}.


(** The create handler for enquiries of each variant. *)
Definition post_enquiry_of (v : Variant) : Runtime -> option Body -> ReqEnv -> M Response :=
  match v with
  | Production => V1.post_enquiry
  | Development => V2.post_enquiry
  end.


(** The list handler [get] issues one [find] on collection [c] and never
    changes the store; it answers 200 with as many documents as the
    collection holds when the store answers, and 500 with
    [{success: false, error: what}] when it does not. *)
Definition list_outcome (what : string) (c : Collection) (get : M Response)
    (env : ReqEnv) (w : World) : Prop :=
  store (get w).2 = store w
  /\ ops (get w).2 = (ops w ++ [Find c])%list
  /\ (store_answers env = true ->
      exists data, (get w).1 = inr (list_response data)
        /\ length data = length (docs c (store w)))
  /\ (store_answers env = false ->
      (get w).1 = inr (res_json 500 (RObj
        [("success", RBool false); ("error", RStr what)]))).

Definition is_POST (m : Method) : bool :=
  match m with
  | POST => true
  | _ => false
  end.

(** The create handler for appointments of each variant. *)
Definition post_appointment_of (v : Variant)
    : Runtime -> option Body -> ReqEnv -> M Response :=
  match v with
  | Production => V1.post_appointment
  | Development => V2.post_appointment
  end.

(** [post] has appended the document [d] to collection [c]. *)
Definition stored_by (c : Collection) (post : M Response) (w : World) (d : Doc)
    : Prop :=
  docs c (store (post w).2) = (docs c (store w) ++ [d])%list.

(** A stored value that is a non-empty text. *)
Definition nonempty_text (v : option BVal) : Prop :=
  exists s, v = Some (BString s) /\ s <> "".

(** Every document of [l] carries a date in [createdAt], earlier than
    [now]. *)
Definition all_created_before (now : Z) (l : list Doc) : Prop :=
  forall d, d ∈ l ->
    exists t, d !! "createdAt" = Some (BDate t) /\ t < now.

(** [post] stores the document [d], and the list handler [get], served
    next while the store answers, returns it first. *)
Definition created_and_listed_first (post : M Response)
    (get : ReqEnv -> M Response) (d : Doc) (w : World) : Prop :=
  store (post w).2 = push_doc Enquiries d (store w)
  /\ forall env', store_answers env' = true ->
       exists rest, (get env' (post w).2).1 = inr (list_response (d :: rest)).
(** * Properties *)

Arguments Model_new : simpl never.
Arguments save : simpl never.
Arguments insertOne : simpl never.
Arguments find_sort_createdAt_desc : simpl never.
Arguments new_Date : simpl never.
Arguments validate : simpl never.
Arguments has_id : simpl never.
Arguments merge_sort : simpl never.
Arguments truthy : simpl never.

Ltac run :=
  unfold mbind, M_bind, mret, M_ret, try_catch, console_log, console_error,
    member, throw, lift; cbn.

Lemma absent_falsy : falsy None.
Proof. reflexivity. Qed.

Lemma empty_text_falsy : falsy (Some (JStr "")).
Proof. reflexivity. Qed.

Lemma enquiry_check_rejects rt (b : Body) env w :
  Exists (fun k => falsy (b !! k)) ["name"; "email"; "message"] ->
  rejects_400 (V1.post_enquiry rt (Some b) env) w
  /\ rejects_400 (V2.post_enquiry rt (Some b) env) w.
Proof.
  rewrite !Exists_cons, Exists_nil. unfold falsy, rejects_400.
  intros H.
  assert (Hc : negb (truthy (b !! "name")) || negb (truthy (b !! "email"))
               || negb (truthy (b !! "message")) = true).
  { destruct H as [-> | [-> | [-> | []]]]; cbn;
      rewrite ?orb_true_r; reflexivity. }
  split; unfold V1.post_enquiry, V2.post_enquiry; run;
    rewrite Hc; cbn; eexists; repeat split; reflexivity.
Qed.

Lemma appointment_check_rejects rt (b : Body) env w :
  Exists (fun k => falsy (b !! k))
    ["name"; "email"; "phone"; "preferredDate"; "preferredTime"; "purpose"] ->
  rejects_400 (V1.post_appointment rt (Some b) env) w
  /\ rejects_400 (V2.post_appointment rt (Some b) env) w.
Proof.
  rewrite !Exists_cons, Exists_nil. unfold falsy, rejects_400.
  intros H.
  assert (Hc : negb (truthy (b !! "name")) || negb (truthy (b !! "email"))
               || negb (truthy (b !! "phone"))
               || negb (truthy (b !! "preferredDate"))
               || negb (truthy (b !! "preferredTime"))
               || negb (truthy (b !! "purpose")) = true).
  { destruct H as [-> | [-> | [-> | [-> | [-> | [-> | []]]]]]]; cbn;
      rewrite ?orb_true_r; reflexivity. }
  split; unfold V1.post_appointment, V2.post_appointment; run;
    rewrite Hc; cbn; eexists; repeat split; reflexivity.
Qed.



(** When Express leaves [req.body] undefined, reading [req.body.name]
    throws inside the [try]: the create handlers answer 500 and store
    nothing. *)
Lemma undefined_body_500 rt env w :
  (V1.post_enquiry rt None env w).1
  = inr (res_json 500 (RObj
      [("error", RStr "Failed to submit enquiry");
       ("details", RStr (error_message rt (TypeError "name")))]))
  /\ (V1.post_appointment rt None env w).1
     = inr (res_json 500 (RObj
         [("error", RStr "Failed to submit appointment request");
          ("details", RStr (error_message rt (TypeError "name")))]))
  /\ store (V1.post_enquiry rt None env w).2 = store w
  /\ store (V1.post_appointment rt None env w).2 = store w.
Proof. repeat split. Qed.

(** ** Document construction *)

Section ModelFacts.
Variable rt : Runtime.
Variable obj : Body.
Variable env : ReqEnv.

Lemma set_path_lookup_ne d p k :
  k <> p.1 -> fields (set_path rt obj env d p) !! k = fields d !! k.
Proof.
  intros Hk. unfold set_path, set_field, invalidate.
  repeat case_match; cbn; rewrite ?lookup_insert_ne by congruence; reflexivity.
Qed.

Lemma set_path_lookup_eq d p :
  fields (set_path rt obj env d p) !! p.1
  = path_value rt obj env p (fields d !! p.1).
Proof.
  unfold set_path, path_value, set_field, invalidate.
  repeat case_match; cbn; rewrite ?lookup_insert_eq; congruence.
Qed.


Lemma foldl_set_path_lookup_notin sch d k :
  k ∉ sch.*1 ->
  fields (foldl (set_path rt obj env) d sch) !! k = fields d !! k.
Proof.
  revert d. induction sch as [|q sch IH]; intros d Hk; [reflexivity|].
  cbn in *. apply not_elem_of_cons in Hk as [Hq Hk].
  rewrite IH by assumption. apply set_path_lookup_ne; assumption.
Qed.

Lemma foldl_set_path_lookup sch d p :
  NoDup sch.*1 -> p ∈ sch ->
  fields (foldl (set_path rt obj env) d sch) !! p.1
  = path_value rt obj env p (fields d !! p.1).
Proof.
  revert d. induction sch as [|q sch IH]; intros d Hnd Hp.
  - inversion Hp.
  - cbn in *. apply NoDup_cons in Hnd as [Hq Hnd].
    apply elem_of_cons in Hp as [-> | Hp].
    + rewrite foldl_set_path_lookup_notin by assumption.
      apply set_path_lookup_eq.
    + rewrite IH by assumption. f_equal. apply set_path_lookup_ne.
      intros Heq. apply Hq. rewrite <- Heq.
      apply list_elem_of_fmap. exists p. split; [reflexivity | assumption].
Qed.


Lemma implicit_paths_id :
  obj !! "_id" = None -> obj !! "id" = None ->
  fields (implicit_paths rt obj env) !! "_id"
  = Some (BObjectId (new_ObjectId env)).
Proof.
  intros H H'. unfold implicit_paths, supplied_id. rewrite H, H'.
  repeat case_match; cbn; rewrite ?lookup_insert_ne by discriminate;
    apply lookup_insert_eq.
Qed.


Lemma validate_None Mo d :
  validate Mo d = None ->
  cast_errors d = [] /\ required_errors (schema Mo) d = [].
Proof.
  unfold validate. destruct (cast_errors d ++ _)%list eqn:E; [|discriminate].
  intros _. apply app_eq_nil in E. exact E.
Qed.
End ModelFacts.

(** ** The store driver *)

Lemma docs_push_doc c d s : docs c (push_doc c d s) = (docs c s ++ [d])%list.
Proof. destruct c; reflexivity. Qed.

Lemma docs_push_doc_ne c c' d s : c <> c' -> docs c (push_doc c' d s) = docs c s.
Proof. destruct c, c'; intros H; try reflexivity; congruence. Qed.



Lemma save_cases env Mo d w :
  (exists e o, save env Mo d w
     = (inl e, {| store := store w; ops := o; console := console w |}))
  \/ (has_id (fields d) (docs (collection Mo) (store w)) = false
      /\ exists o, save env Mo d w
           = (inr tt, {| store := push_doc (collection Mo) (fields d) (store w);
                         ops := o; console := console w |})).
Proof.
  unfold save, insertOne, throw.
  destruct (validate Mo d).
  - left. destruct w. eauto.
  - destruct (negb (store_answers env)); [left; eauto|].
    destruct (has_id _ _) eqn:Hi; [left; eauto|]. right. eauto.
Qed.

Lemma find_answered env c w :
  store_answers env = true ->
  find_sort_createdAt_desc env c w
  = (inr (merge_sort createdAt_desc (docs c (store w))),
     {| store := store w; ops := (ops w ++ [Find c])%list;
        console := console w |}).
Proof. intros Hr. unfold find_sort_createdAt_desc. rewrite Hr. reflexivity. Qed.

Lemma get_enquiries_answered env w :
  store_answers env = true ->
  (V1.get_enquiries env w).1
  = inr (list_response (merge_sort createdAt_desc (enquiries (store w))))
  /\ (V2.get_enquiries env w).1
     = inr (list_response (merge_sort createdAt_desc (enquiries (store w)))).
Proof.
  intros Hr. unfold V1.get_enquiries, V2.get_enquiries. run.
  rewrite (find_answered env Enquiries w Hr). split; reflexivity.
Qed.

Lemma get_appointments_answered env w :
  store_answers env = true ->
  (V1.get_appointments env w).1
  = inr (list_response (merge_sort createdAt_desc (appointments (store w))))
  /\ (V2.get_appointments env w).1
     = inr (list_response (merge_sort createdAt_desc (appointments (store w)))).
Proof.
  intros Hr. unfold V1.get_appointments, V2.get_appointments. run.
  rewrite (find_answered env Appointments w Hr). split; reflexivity.
Qed.

(** ** Creating an enquiry *)


Ltac in_schema :=
  repeat first [ apply list_elem_of_here | apply list_elem_of_further ].

Lemma enquirySchema_NoDup : NoDup enquirySchema.*1.
Proof. compute_done. Qed.

Lemma appointmentSchema_NoDup : NoDup appointmentSchema.*1.
Proof. compute_done. Qed.





(** ** Listing *)

#[global] Instance createdAt_desc_total : Total createdAt_desc.
Proof. intros a b. unfold createdAt_desc, bson_le. lia. Qed.

#[global] Instance createdAt_desc_trans : Transitive createdAt_desc.
Proof. intros a b c. unfold createdAt_desc, bson_le. lia. Qed.

Lemma created_earlier_not_desc a b :
  created_earlier a b -> ~ createdAt_desc a b.
Proof.
  intros (ta & tb & Ha & Hb & Hlt). unfold createdAt_desc, bson_le.
  rewrite Ha, Hb. cbn. lia.
Qed.

Lemma sorted_listed_before (data : list Doc) a b :
  StronglySorted createdAt_desc data ->
  a ∈ data -> b ∈ data -> ~ createdAt_desc a b ->
  listed_before b a data.
Proof.
  intros Hs Ha Hb Hn.
  apply list_elem_of_split in Ha as (l1 & l2 & ->).
  apply elem_of_app in Hb as [Hb | Hb].
  - apply list_elem_of_split in Hb as (k1 & k2 & ->).
    exists k1, k2, l2. rewrite <- app_assoc. reflexivity.
  - apply elem_of_cons in Hb as [-> | Hb].
    + exfalso. apply Hn. destruct (total createdAt_desc a a); assumption.
    + exfalso. apply Hn.
      apply StronglySorted_app_1_r in Hs.
      apply StronglySorted_inv in Hs as [_ Hall].
      rewrite List.Forall_forall in Hall. apply Hall.
      apply list_elem_of_In. assumption.
Qed.

Lemma merge_sort_newest_first (l : list Doc) a b :
  a ∈ l -> b ∈ l -> created_earlier a b ->
  listed_before b a (merge_sort createdAt_desc l).
Proof.
  intros Ha Hb Hab. apply sorted_listed_before.
  - apply (StronglySorted_merge_sort _).
  - rewrite merge_sort_Permutation. exact Ha.
  - rewrite merge_sort_Permutation. exact Hb.
  - apply created_earlier_not_desc. exact Hab.
Qed.

(** C3, as amended: while the store answers, each list endpoint of either
    variant answers 200 with all stored documents of its collection sorted
    by [createdAt] descending; of two stored documents, the one with the
    later [createdAt] date comes first. *)
Theorem list_sorted_by_createdAt env w :
  store_answers env = true ->
  lists_newest_first (V1.get_enquiries env) Enquiries w
  /\ lists_newest_first (V1.get_appointments env) Appointments w
  /\ lists_newest_first (V2.get_enquiries env) Enquiries w
  /\ lists_newest_first (V2.get_appointments env) Appointments w.
Proof.
  intros Hr.
  destruct (get_enquiries_answered env w Hr) as [E1 E2].
  destruct (get_appointments_answered env w Hr) as [A1 A2].
  unfold lists_newest_first.
  repeat split.
  all: eexists; split; [eassumption|]; split;
    [apply merge_sort_Permutation|]; split;
    [apply (StronglySorted_merge_sort _)|];
    intros a b; apply merge_sort_newest_first.
Qed.

Lemma list_sorted_by_createdAt_witness :
  lists_newest_first (V1.get_enquiries (test_env 3 3000)) Enquiries after_second.
Proof.
  apply (list_sorted_by_createdAt (test_env 3 3000) after_second). reflexivity.
Defined.

(** C3 as stated fails: [first_doc] is inserted before [second_doc], whose
    sender set [createdAt] to the epoch, and the list places [first_doc]
    first. *)
Lemma later_insert_listed_last :
  enquiries (store after_first) = [first_doc]
  /\ enquiries (store after_second) = [first_doc; second_doc]
  /\ (V1.get_enquiries (test_env 3 3000) after_second).1
     = inr (list_response [first_doc; second_doc])
  /\ (V2.get_enquiries (test_env 3 3000) after_second).1
     = inr (list_response [first_doc; second_doc])
  /\ ~ listed_before second_doc first_doc [first_doc; second_doc].
Proof.
  split; [vm_compute; reflexivity|].
  split; [vm_compute; reflexivity|].
  split; [vm_compute; reflexivity|].
  split; [vm_compute; reflexivity|].
  intros (l1 & l2 & l3 & H).
  assert (Hne : first_doc <> second_doc).
  { intros E. apply (f_equal (fun d : Doc => d !! "_id")) in E.
    vm_compute in E. discriminate. }
  assert (Hlen : l1 = []).
  { apply (f_equal length) in H. rewrite length_app in H. cbn in H.
    rewrite length_app in H. cbn in H. destruct l1; [reflexivity|].
    cbn in H. lia. }
  subst l1. apply (f_equal (fun l : list Doc => l !! 0%nat)) in H.
  cbn in H. apply Hne. apply (inj Some). exact H.
Qed.

(** ** Creating an appointment *)



Lemma appointment_check_passes (b : Body) :
  Forall (fun k => truthy (b !! k) = true) appointment_fields ->
  negb (truthy (b !! "name")) || negb (truthy (b !! "email"))
  || negb (truthy (b !! "phone")) || negb (truthy (b !! "preferredDate"))
  || negb (truthy (b !! "preferredTime")) || negb (truthy (b !! "purpose"))
  = false.
Proof.
  unfold appointment_fields. rewrite !Forall_cons.
  intros (-> & -> & -> & -> & -> & -> & _). reflexivity.
Qed.

Lemma appointment_check_cases (b : Body) :
  Forall (fun k => truthy (b !! k) = true) appointment_fields
  \/ Exists (fun k => falsy (b !! k)) appointment_fields.
Proof.
  unfold appointment_fields, falsy.
  rewrite !Forall_cons, !Exists_cons, Exists_nil, Forall_nil.
  destruct (truthy (b !! "name")), (truthy (b !! "email")),
    (truthy (b !! "phone")), (truthy (b !! "preferredDate")),
    (truthy (b !! "preferredTime")), (truthy (b !! "purpose")); tauto.
Qed.







(** ** Invariants of the store *)

Lemma enquiry_server_assigned rt (b : Body) env :
  server_assigned (Some b) env (fields (Model_new rt Enquiry b env)).
Proof.
  exists b. split; [reflexivity|]. unfold Model_new. split; [intros H H'|intros H].
  - rewrite foldl_set_path_lookup_notin by compute_done.
    apply implicit_paths_id; assumption.
  - cbn [schema Enquiry].
    rewrite (foldl_set_path_lookup rt b env _ _
               ("createdAt",
                {| type := SDate; required := false; default_ := DefaultNow |})
               enquirySchema_NoDup) by in_schema.
    unfold path_value. cbn [fst snd]. rewrite H. reflexivity.
Qed.

Lemma appointment_server_assigned rt (b : Body) env date :
  server_assigned (Some b) env
    (fields (Model_new rt Appointment (<["preferredDate" := JDate date]> b) env)).
Proof.
  exists b. split; [reflexivity|]. unfold Model_new. split; [intros H H'|intros H].
  - rewrite foldl_set_path_lookup_notin by compute_done.
    apply implicit_paths_id; rewrite lookup_insert_ne by discriminate;
      assumption.
  - cbn [schema Appointment].
    rewrite (foldl_set_path_lookup rt _ env _ _
               ("createdAt",
                {| type := SDate; required := false; default_ := DefaultNow |})
               appointmentSchema_NoDup) by in_schema.
    unfold path_value. cbn [fst snd].
    rewrite lookup_insert_ne by discriminate. rewrite H. reflexivity.
Qed.

Ltac handler_appends :=
  run;
  repeat match goal with
  | |- context [if ?c then _ else _] => destruct c; cbn
  | |- context [match new_Date ?rt ?v with _ => _ end] =>
      destruct (new_Date rt v); cbn
  | |- context [save ?env ?Mo ?d ?w] =>
      destruct (save_cases env Mo d w) as [(? & ? & ->) | (? & ? & ->)]; cbn
  end.

Lemma post_enquiry_appends rt o env w :
  appends o env (store w) (store (V1.post_enquiry rt o env w).2)
  /\ appends o env (store w) (store (V2.post_enquiry rt o env w).2).
Proof.
  unfold appends, V1.post_enquiry, V2.post_enquiry.
  destruct o as [b|]; split; handler_appends;
    first [ left; reflexivity
          | right; exists Enquiries; eexists; split; [reflexivity|];
            split; [eassumption | apply enquiry_server_assigned] ].
Qed.

Lemma post_appointment_appends rt o env w :
  appends o env (store w) (store (V1.post_appointment rt o env w).2)
  /\ appends o env (store w) (store (V2.post_appointment rt o env w).2).
Proof.
  unfold appends, V1.post_appointment, V2.post_appointment.
  destruct o as [b|]; split; handler_appends;
    first [ left; reflexivity
          | right; exists Appointments; eexists; split; [reflexivity|];
            split; [eassumption | apply appointment_server_assigned] ].
Qed.

Lemma get_handlers_store env w :
  store (V1.get_enquiries env w).2 = store w
  /\ store (V1.get_appointments env w).2 = store w
  /\ store (V2.get_enquiries env w).2 = store w
  /\ store (V2.get_appointments env w).2 = store w.
Proof.
  unfold V1.get_enquiries, V1.get_appointments, V2.get_enquiries,
    V2.get_appointments, find_sort_createdAt_desc.
  run. repeat split; destruct (negb (store_answers env)); reflexivity.
Qed.

Ltac route_appends :=
  match goal with
  | |- appends _ _ _ (store (V1.post_enquiry ?rt ?o ?env ?w).2) =>
      exact (proj1 (post_enquiry_appends rt o env w))
  | |- appends _ _ _ (store (V2.post_enquiry ?rt ?o ?env ?w).2) =>
      exact (proj2 (post_enquiry_appends rt o env w))
  | |- appends _ _ _ (store (V1.post_appointment ?rt ?o ?env ?w).2) =>
      exact (proj1 (post_appointment_appends rt o env w))
  | |- appends _ _ _ (store (V2.post_appointment ?rt ?o ?env ?w).2) =>
      exact (proj2 (post_appointment_appends rt o env w))
  | |- appends _ _ _ (store (V1.get_enquiries ?env ?w).2) =>
      left; exact (proj1 (get_handlers_store env w))
  | |- appends _ _ _ (store (V1.get_appointments ?env ?w).2) =>
      left; exact (proj1 (proj2 (get_handlers_store env w)))
  | |- appends _ _ _ (store (V2.get_enquiries ?env ?w).2) =>
      left; exact (proj1 (proj2 (proj2 (get_handlers_store env w))))
  | |- appends _ _ _ (store (V2.get_appointments ?env ?w).2) =>
      left; exact (proj2 (proj2 (proj2 (get_handlers_store env w))))
  | |- _ => left; reflexivity
  end.

Lemma app_appends v rt penv req env w :
  appends (req_body_of rt req) env (store w)
    (store (serve v rt penv w (req, env))).
Proof.
  unfold serve, app_of, req_body_of. cbn [fst snd].
  destruct v; unfold V1.app, V2.app, V1.handles, V2.handles.
  all: destruct (method req) eqn:Hm; try (left; reflexivity).
  all: unfold body_parsers;
    destruct (_ <? body_length req)%N; try (left; reflexivity).
  all: destruct (parsed req) eqn:Hp; try (left; reflexivity).
  all: run.
  all: repeat match goal with
       | |- context [if ?c then _ else _] => destruct c
       end.
  all: route_appends.
Qed.

Lemma has_id_false_notin (d : Doc) l :
  has_id d l = false -> d !! "_id" ∉ ids l.
Proof.
  unfold has_id, ids. intros H Hin.
  apply bool_decide_eq_false in H. contradiction.
Qed.

Lemma appends_prefix o env s s' c :
  appends o env s s' -> docs c s `prefix_of` docs c s'.
Proof.
  intros [-> | (c' & d & -> & _ & _)]; [reflexivity|].
  destruct (decide (c = c')) as [-> | Hne].
  - rewrite docs_push_doc. apply prefix_app_r. reflexivity.
  - rewrite docs_push_doc_ne by assumption. reflexivity.
Qed.

Lemma appends_NoDup o env s s' c :
  appends o env s s' -> NoDup (ids (docs c s)) -> NoDup (ids (docs c s')).
Proof.
  intros [-> | (c' & d & -> & Hi & _)] Hnd; [exact Hnd|].
  destruct (decide (c = c')) as [-> | Hne].
  - rewrite docs_push_doc. unfold ids. rewrite fmap_app. cbn.
    apply NoDup_app. split; [exact Hnd|]. split.
    + intros x Hx Hx'. apply list_elem_of_singleton in Hx'. subst x.
      apply (has_id_false_notin _ _ Hi). exact Hx.
    + apply NoDup_singleton.
  - rewrite docs_push_doc_ne by assumption. exact Hnd.
Qed.

Lemma appends_new_doc o env s s' c d :
  appends o env s s' -> docs c s' = (docs c s ++ [d])%list ->
  server_assigned o env d.
Proof.
  intros [-> | (c' & d' & -> & _ & Hsa)] Hd.
  - apply (f_equal length) in Hd. rewrite length_app in Hd. cbn in Hd. lia.
  - destruct (decide (c = c')) as [-> | Hne].
    + rewrite docs_push_doc in Hd. apply app_inj_tail in Hd as [_ ->].
      exact Hsa.
    + rewrite docs_push_doc_ne in Hd by assumption.
      apply (f_equal length) in Hd. rewrite length_app in Hd. cbn in Hd. lia.
Qed.

(** C5, as amended: for either variant and every sequence of requests, the
    documents a collection held before are still there, unchanged and in
    place (each collection only grows at its end); if the ids of each
    collection were pairwise distinct before, they are after; and a document
    a request adds has the generated ObjectId as [_id] when the request
    body carries no [_id] (nor its alias [id]), and the server's clock as
    [createdAt] when the body carries no [createdAt]. *)
Theorem records_append_only v rt penv :
  (forall rs w c,
     docs c (store w) `prefix_of` docs c (store (serve_all v rt penv rs w)))
  /\ (forall rs w c,
        NoDup (ids (docs c (store w))) ->
        NoDup (ids (docs c (store (serve_all v rt penv rs w)))))
  /\ (forall req env w c d,
        docs c (store (serve v rt penv w (req, env)))
        = (docs c (store w) ++ [d])%list ->
        server_assigned (req_body_of rt req) env d).
Proof.
  split; [|split].
  - intros rs. unfold serve_all.
    induction rs as [|[req env] rs IH]; intros w c; cbn [foldl].
    + reflexivity.
    + etransitivity; [|apply IH].
      eapply appends_prefix. apply app_appends.
  - intros rs. unfold serve_all.
    induction rs as [|[req env] rs IH]; intros w c Hnd; cbn [foldl].
    + exact Hnd.
    + apply IH. eapply appends_NoDup; [apply app_appends | exact Hnd].
  - intros req env w c d Hd.
    eapply appends_new_doc; [apply app_appends | exact Hd].
Qed.

Lemma records_append_only_witness :
  NoDup (ids (docs Enquiries
                (store (serve_all Production test_runtime ∅
                          [(post_request example_enquiry, test_env 1 1000);
                           (post_request example_enquiry, test_env 1 2000)]
                          (start empty_store))))).
Proof.
  apply (proj1 (proj2 (records_append_only Production test_runtime ∅))).
  cbn. apply NoDup_nil_2.
Defined.

(** C5 as stated fails: the sender of [backdated_enquiry] sets [createdAt],
    and the stored record carries the sender's date, not the server's
    clock (2000). *)
Lemma caller_sets_createdAt :
  enquiries (store backdated_world) = [second_doc]
  /\ second_doc !! "createdAt" = Some (BDate 0)
  /\ Date_now (test_env 2 2000) = 2000.
Proof. vm_compute. repeat split. Qed.

(** ** Health, start-up, routing *)


(** C7, as amended: with the connection string unset or empty, variant 1
    exits with status 1 in production mode and connects to the local
    default otherwise; variant 2 has no production mode and connects to its
    local default in every mode. *)
Theorem missing_connection_string (penv : ProcessEnv) :
  env_truthy (penv !! "MONGODB_URI") = false ->
  (penv !! "NODE_ENV" = Some "production" ->
   V1.getMongoURI penv = process_exit 1)
  /\ (penv !! "NODE_ENV" <> Some "production" ->
      V1.getMongoURI penv
      = mongoose_connect "mongodb://127.0.0.1:27017/skm-chambers")
  /\ V2.connect penv = mongoose_connect "mongodb://localhost:27017/skm-chambers".
Proof.
  intros Hu. unfold V1.getMongoURI, V1.isProduction, V2.connect, env_or.
  rewrite Hu. repeat split.
  - intros Hp. rewrite bool_decide_eq_true_2 by assumption. reflexivity.
  - intros Hp. rewrite bool_decide_eq_false_2 by assumption. reflexivity.
Qed.

Lemma missing_connection_string_witness :
  V1.getMongoURI production_env = process_exit 1.
Proof.
  apply (missing_connection_string production_env); reflexivity.
Defined.

(** C7 as stated fails for variant 2: in production mode without a
    connection string it does not exit but connects to the local default. *)
Lemma development_server_never_exits :
  production_env !! "MONGODB_URI" = None
  /\ production_env !! "NODE_ENV" = Some "production"
  /\ V2.connect production_env
     = mongoose_connect "mongodb://localhost:27017/skm-chambers"
  /\ V2.connect production_env <> process_exit 1.
Proof. repeat split. discriminate. Qed.





(** ** The two variants *)




(** C10: each list handler of either variant answers 500 or 200, and in a
    200 response [count] is the number of elements of [data]. *)
Theorem list_count_is_length env w :
  count_is_length (V1.get_enquiries env) w
  /\ count_is_length (V1.get_appointments env) w
  /\ count_is_length (V2.get_enquiries env) w
  /\ count_is_length (V2.get_appointments env) w.
Proof.
  unfold count_is_length, V1.get_enquiries, V1.get_appointments,
    V2.get_enquiries, V2.get_appointments, find_sort_createdAt_desc.
  run.
  repeat split; destruct (negb (store_answers env)); cbn;
    eexists; (split; [reflexivity|]); cbn;
    first [ left; reflexivity
          | right; split; [reflexivity|]; eexists; split; reflexivity ].
Qed.

(** * Further properties of the handlers *)

Lemma save_outcome env Mo d w :
  (exists e, validate Mo d = Some e /\ save env Mo d w = (inl e, w))
  \/ (validate Mo d = None
      /\ (store_answers env = false
          \/ has_id (fields d) (docs (collection Mo) (store w)) = true)
      /\ exists e, error_name e <> "ValidationError"
           /\ save env Mo d w
              = (inl e, {| store := store w;
                           ops := (ops w ++ [InsertOne (collection Mo) (fields d)])%list;
                           console := console w |}))
  \/ (validate Mo d = None
      /\ store_answers env = true
      /\ has_id (fields d) (docs (collection Mo) (store w)) = false
      /\ save env Mo d w
         = (inr tt, {| store := push_doc (collection Mo) (fields d) (store w);
                       ops := (ops w ++ [InsertOne (collection Mo) (fields d)])%list;
                       console := console w |})).
Proof.
  unfold save, insertOne, throw.
  destruct (validate Mo d) as [e|] eqn:Hv.
  - left. eauto.
  - destruct (store_answers env) eqn:Ha; cbn.
    + destruct (has_id _ _) eqn:Hi.
      * right. left. split; [reflexivity|]. split; [right; reflexivity|].
        eexists. split; [|reflexivity]. discriminate.
      * right. right. repeat split; reflexivity.
    + right. left. split; [reflexivity|]. split; [left; reflexivity|].
      eexists. split; [|reflexivity]. discriminate.
Qed.

Lemma validate_is_ValidationError Mo d e :
  validate Mo d = Some e -> error_name e = "ValidationError".
Proof.
  unfold validate. destruct (_ ++ _)%list; intros H; [discriminate|].
  injection H as <-. reflexivity.
Qed.

Lemma enquiry_check_passes (b : Body) :
  Forall (fun k => truthy (b !! k) = true) enquiry_fields ->
  negb (truthy (b !! "name")) || negb (truthy (b !! "email"))
  || negb (truthy (b !! "message")) = false.
Proof.
  unfold enquiry_fields. rewrite !Forall_cons.
  intros (-> & -> & -> & _). reflexivity.
Qed.

Lemma enquiry_check_cases (b : Body) :
  Forall (fun k => truthy (b !! k) = true) enquiry_fields
  \/ Exists (fun k => falsy (b !! k)) enquiry_fields.
Proof.
  unfold enquiry_fields, falsy.
  rewrite !Forall_cons, !Exists_cons, Exists_nil, Forall_nil.
  destruct (truthy (b !! "name")), (truthy (b !! "email")),
    (truthy (b !! "message")); tauto.
Qed.

Lemma error_name_eqb e :
  error_name e <> "ValidationError" ->
  String.eqb (error_name e) "ValidationError" = false.
Proof. intros H. apply String.eqb_neq. exact H. Qed.

Ltac after_save :=
  match goal with
  | |- context [save ?env ?Mo ?d ?w'] =>
      let e := fresh "e" in
      let Hv := fresh "Hv" in
      let Hf := fresh "Hf" in
      let Hn := fresh "Hn" in
      let Ha := fresh "Ha" in
      let Hi := fresh "Hi" in
      destruct (save_outcome env Mo d w')
        as [(e & Hv & ->) | [(Hv & Hf & e & Hn & ->) | (Hv & Ha & Hi & ->)]];
      cbn;
      [ left; exists e; split; [exact Hv|];
        rewrite (validate_is_ValidationError _ _ _ Hv); cbn; repeat split
      | right; left; split; [exact Hv|]; split; [exact Hf|];
        rewrite (error_name_eqb _ Hn); cbn; split; [eexists; reflexivity|];
        split; reflexivity
      | right; right; split; [exact Hv|]; split; [exact Ha|];
        split; [exact Hi|]; repeat split ]
  end.

Lemma post_enquiry_saves rt (b : Body) env w :
  Forall (fun k => truthy (b !! k) = true) enquiry_fields ->
  saved_or_refused rt Enquiry "Failed to submit enquiry"
    "Enquiry submitted successfully" (V1.post_enquiry rt (Some b) env) b env w
  /\ saved_or_refused rt Enquiry "Failed to submit enquiry"
       "Enquiry submitted successfully" (V2.post_enquiry rt (Some b) env)
       b env w.
Proof.
  intros Hall. apply enquiry_check_passes in Hall.
  unfold saved_or_refused, V1.post_enquiry, V2.post_enquiry.
  split; run; rewrite Hall; cbn; after_save.
Qed.

Lemma post_appointment_saves rt (b : Body) env w date :
  Forall (fun k => truthy (b !! k) = true) appointment_fields ->
  new_Date rt (b !! "preferredDate") = inr date ->
  saved_or_refused rt Appointment "Failed to submit appointment request"
    "Appointment request submitted successfully"
    (V1.post_appointment rt (Some b) env)
    (<["preferredDate" := JDate date]> b) env w
  /\ saved_or_refused rt Appointment "Failed to submit appointment request"
       "Appointment request submitted successfully"
       (V2.post_appointment rt (Some b) env)
       (<["preferredDate" := JDate date]> b) env w.
Proof.
  intros Hall Hd. apply appointment_check_passes in Hall.
  unfold saved_or_refused, V1.post_appointment, V2.post_appointment.
  split; run; rewrite Hall, Hd; cbn; after_save.
Qed.

Lemma new_Date_throws rt v e :
  new_Date rt v = inl e -> e = TypeError "toString".
Proof.
  unfold new_Date. intros H.
  repeat match type of H with
  | context [match ?x with _ => _ end] => destruct x
  end; try discriminate; injection H as <-; reflexivity.
Qed.

Lemma post_appointment_date_throws rt (b : Body) env w e :
  Forall (fun k => truthy (b !! k) = true) appointment_fields ->
  new_Date rt (b !! "preferredDate") = inl e ->
  ((V1.post_appointment rt (Some b) env w).1
   = inr (failure_response rt "Failed to submit appointment request" e)
   /\ store (V1.post_appointment rt (Some b) env w).2 = store w
   /\ ops (V1.post_appointment rt (Some b) env w).2 = ops w)
  /\ ((V2.post_appointment rt (Some b) env w).1
      = inr (failure_response rt "Failed to submit appointment request" e)
      /\ store (V2.post_appointment rt (Some b) env w).2 = store w
      /\ ops (V2.post_appointment rt (Some b) env w).2 = ops w).
Proof.
  intros Hall Hd. pose proof (new_Date_throws _ _ _ Hd) as ->.
  apply appointment_check_passes in Hall.
  unfold V1.post_appointment, V2.post_appointment.
  split; run; rewrite Hall, Hd; cbn; repeat split.
Qed.




(** ** Listing *)

Lemma length_merge_sort (l : list Doc) :
  length (merge_sort createdAt_desc l) = length l.
Proof. apply Permutation_length, merge_sort_Permutation. Qed.

(** X2: the list handlers only read.  In either variant, [GET
    /api/enquiries] and [GET /api/appointments] issue one [find], never
    change the store and never throw; when the store answers the response
    is 200 with as many records as the collection holds, and when it does
    not the response is 500 with [{success: false, error: "Failed to fetch
    enquiries"}] (or "... appointments"), without the error's message. *)
Theorem list_handlers_read_only env w :
  list_outcome "Failed to fetch enquiries" Enquiries (V1.get_enquiries env) env w
  /\ list_outcome "Failed to fetch appointments" Appointments
       (V1.get_appointments env) env w
  /\ list_outcome "Failed to fetch enquiries" Enquiries
       (V2.get_enquiries env) env w
  /\ list_outcome "Failed to fetch appointments" Appointments
       (V2.get_appointments env) env w.
Proof.
  unfold list_outcome, V1.get_enquiries, V1.get_appointments,
    V2.get_enquiries, V2.get_appointments, find_sort_createdAt_desc.
  run.
  repeat split; destruct (store_answers env); cbn; try reflexivity;
    try discriminate; intros _;
    eexists; (split; [reflexivity | apply length_merge_sort]).
Qed.

Lemma list_handlers_read_only_witness :
  (V1.get_enquiries (offline_env 7 1000) after_second).1
  = inr (res_json 500 (RObj
      [("success", RBool false); ("error", RStr "Failed to fetch enquiries")])).
Proof.
  refine (proj2 (proj2 (proj2 (proj1 (list_handlers_read_only
                                        (offline_env 7 1000) after_second)))) _).
  reflexivity.
Defined.

(** ** The error-handling middleware *)




(** ** Which requests write *)

Lemma non_post_store v rt penv req env w :
  is_POST (method req) = false ->
  store (serve v rt penv w (req, env)) = store w.
Proof.
  intros Hm. unfold serve, app_of. cbn [fst snd].
  destruct v; unfold V1.app, V2.app, V1.handles, V2.handles.
  all: destruct (method req) eqn:Em; try discriminate Hm; try reflexivity.
  all: unfold body_parsers; destruct (_ <? body_length req)%N; try reflexivity.
  all: destruct (parsed req); try reflexivity.
  all: run.
  all: repeat match goal with
       | |- context [if ?c then _ else _] => destruct c
       end.
  all: try reflexivity.
  all: match goal with
       | |- store (V1.get_enquiries ?env ?w).2 = _ =>
           exact (proj1 (get_handlers_store env w))
       | |- store (V1.get_appointments ?env ?w).2 = _ =>
           exact (proj1 (proj2 (get_handlers_store env w)))
       | |- store (V2.get_enquiries ?env ?w).2 = _ =>
           exact (proj1 (proj2 (proj2 (get_handlers_store env w))))
       | |- store (V2.get_appointments ?env ?w).2 = _ =>
           exact (proj2 (proj2 (proj2 (get_handlers_store env w))))
       end.
Qed.

(** X4: only a [POST] writes.  Whatever the path, the body and the state of
    the store, a request of any other method ([GET], [HEAD], [PUT],
    [DELETE], [PATCH], [OPTIONS], ...) leaves both collections exactly as
    they were, in either variant: the application has no update and no
    delete. *)
Theorem only_post_writes v rt penv req env w :
  method req <> POST ->
  store (serve v rt penv w (req, env)) = store w.
Proof.
  intros Hm. apply non_post_store.
  destruct (method req); try reflexivity. contradiction.
Qed.

Lemma only_post_writes_witness :
  store (serve Production test_runtime ∅ after_second
           (unknown_page, test_env 9 9000)) = store after_second.
Proof.
  apply (only_post_writes Production test_runtime ∅ unknown_page
           (test_env 9 9000) after_second).
  discriminate.
Defined.

(** ** What the create handlers store *)

Lemma not_stored_by c post w d :
  store (post w).2 = store w -> ~ stored_by c post w d.
Proof.
  unfold stored_by. intros -> E.
  apply (f_equal length) in E. rewrite length_app in E. cbn in E. lia.
Qed.

Lemma saved_or_refused_stored rt Mo what message post obj env w d :
  saved_or_refused rt Mo what message post obj env w ->
  stored_by (collection Mo) post w d ->
  validate Mo (Model_new rt Mo obj env) = None
  /\ d = fields (Model_new rt Mo obj env).
Proof.
  intros [(e & _ & _ & Hs & _)
         | [(_ & _ & _ & Hs & _) | (Hv & _ & _ & _ & Hs & _)]] Hd.
  - exfalso. exact (not_stored_by _ _ _ _ Hs Hd).
  - exfalso. exact (not_stored_by _ _ _ _ Hs Hd).
  - split; [exact Hv|]. unfold stored_by in Hd. rewrite Hs in Hd.
    rewrite docs_push_doc in Hd. apply app_inj_tail in Hd as [_ Hd].
    symmetry. exact Hd.
Qed.

Lemma enquiry_stored v rt o env w d :
  stored_by Enquiries (post_enquiry_of v rt o env) w d ->
  exists b, o = Some b
    /\ validate Enquiry (Model_new rt Enquiry b env) = None
    /\ d = fields (Model_new rt Enquiry b env).
Proof.
  intros Hd. destruct o as [b|].
  - exists b. split; [reflexivity|].
    destruct (enquiry_check_cases b) as [Hall | Hex].
    + destruct (post_enquiry_saves rt b env w Hall) as [H1 H2].
      destruct v; cbn [post_enquiry_of] in Hd;
        [ exact (saved_or_refused_stored rt Enquiry _ _ _ _ _ _ _ H1 Hd)
        | exact (saved_or_refused_stored rt Enquiry _ _ _ _ _ _ _ H2 Hd) ].
    + exfalso. destruct (enquiry_check_rejects rt b env w Hex)
        as [(r1 & _ & _ & S1 & _) (r2 & _ & _ & S2 & _)].
      destruct v; cbn [post_enquiry_of] in Hd;
        [ exact (not_stored_by _ _ _ _ S1 Hd)
        | exact (not_stored_by _ _ _ _ S2 Hd) ].
  - exfalso. destruct v; cbn [post_enquiry_of] in Hd;
      (refine (not_stored_by _ _ _ _ _ Hd); reflexivity).
Qed.

Lemma appointment_stored v rt o env w d :
  stored_by Appointments (post_appointment_of v rt o env) w d ->
  exists b date, o = Some b
    /\ validate Appointment
         (Model_new rt Appointment (<["preferredDate" := JDate date]> b) env)
       = None
    /\ d = fields (Model_new rt Appointment
                     (<["preferredDate" := JDate date]> b) env).
Proof.
  intros Hd. destruct o as [b|].
  - destruct (appointment_check_cases b) as [Hall | Hex].
    + destruct (new_Date rt (b !! "preferredDate")) as [e | date] eqn:Hn.
      * exfalso.
        destruct (post_appointment_date_throws rt b env w e Hall Hn)
          as [(_ & S1 & _) (_ & S2 & _)].
        destruct v; cbn [post_appointment_of] in Hd;
          [ exact (not_stored_by _ _ _ _ S1 Hd)
          | exact (not_stored_by _ _ _ _ S2 Hd) ].
      * exists b, date. split; [reflexivity|].
        destruct (post_appointment_saves rt b env w date Hall Hn) as [H1 H2].
        destruct v; cbn [post_appointment_of] in Hd;
          [ exact (saved_or_refused_stored rt Appointment _ _ _ _ _ _ _ H1 Hd)
          | exact (saved_or_refused_stored rt Appointment _ _ _ _ _ _ _ H2 Hd) ].
    + exfalso. destruct (appointment_check_rejects rt b env w Hex)
        as [(r1 & _ & _ & S1 & _) (r2 & _ & _ & S2 & _)].
      destruct v; cbn [post_appointment_of] in Hd;
        [ exact (not_stored_by _ _ _ _ S1 Hd)
        | exact (not_stored_by _ _ _ _ S2 Hd) ].
  - exfalso. destruct v; cbn [post_appointment_of] in Hd;
      (refine (not_stored_by _ _ _ _ _ Hd); reflexivity).
Qed.

Lemma validate_required Mo d p :
  validate Mo d = None -> p ∈ schema Mo -> required p.2 = true ->
  checkRequired (type p.2) (fields d !! p.1) = true.
Proof.
  intros Hv Hp Hr. apply validate_None in Hv as [Hc He].
  destruct (checkRequired (type p.2) (fields d !! p.1)) eqn:E; [reflexivity|].
  exfalso.
  assert (Hin : (p.1, RequiredError) ∈ required_errors (schema Mo) d).
  { unfold required_errors. apply list_elem_of_omap. exists p.
    split; [exact Hp|]. rewrite Hr, Hc, E. reflexivity. }
  rewrite He in Hin. inversion Hin.
Qed.

Lemma required_text Mo d k sp :
  validate Mo d = None -> (k, sp) ∈ schema Mo ->
  required sp = true -> type sp = SString ->
  nonempty_text (fields d !! k).
Proof.
  intros Hv Hp Hr Ht.
  pose proof (validate_required Mo d (k, sp) Hv Hp Hr) as Hc.
  cbn [fst snd] in Hc. rewrite Ht in Hc. unfold checkRequired in Hc.
  destruct (fields d !! k) as [[| |s| |]|]; try discriminate.
  exists s. split; [reflexivity|]. intros ->. discriminate.
Qed.

(** X5: the store never receives a record that lacks a required field.
    Every document the enquiry handler of either variant appends has a
    non-empty text in name, email and message; every document the
    appointment handler appends has a non-empty text in name, email,
    phone, preferredTime and purpose and a date in preferredDate. *)
Theorem stored_required_fields v rt o env w d :
  (stored_by Enquiries (post_enquiry_of v rt o env) w d ->
   Forall (fun k => nonempty_text (d !! k)) enquiry_fields)
  /\ (stored_by Appointments (post_appointment_of v rt o env) w d ->
      Forall (fun k => nonempty_text (d !! k))
        ["name"; "email"; "phone"; "preferredTime"; "purpose"]
      /\ exists t, d !! "preferredDate" = Some (BDate t)).
Proof.
  split.
  - intros Hd. destruct (enquiry_stored v rt o env w d Hd) as (b & _ & Hv & ->).
    clear Hd. generalize dependent (Model_new rt Enquiry b env). intros doc Hv.
    unfold enquiry_fields. rewrite !Forall_cons, Forall_nil.
    repeat match goal with |- _ /\ _ => split end; try exact I;
      (eapply (required_text Enquiry);
       [exact Hv | cbn; in_schema | reflexivity | reflexivity]).
  - intros Hd.
    destruct (appointment_stored v rt o env w d Hd) as (b & date & _ & Hv & ->).
    clear Hd.
    generalize dependent
      (Model_new rt Appointment (<["preferredDate" := JDate date]> b) env).
    intros doc Hv. split.
    + rewrite !Forall_cons, Forall_nil.
      repeat match goal with |- _ /\ _ => split end; try exact I;
        (eapply (required_text Appointment);
         [exact Hv | cbn; in_schema | reflexivity | reflexivity]).
    + pose proof (validate_required Appointment _
                    ("preferredDate",
                     {| type := SDate; required := true; default_ := NoDefault |})
                    Hv) as Hc.
      cbn [fst snd type required] in Hc.
      specialize (Hc ltac:(cbn; in_schema) eq_refl).
      unfold checkRequired in Hc.
      destruct (fields doc !! "preferredDate") as [[| | |t|]|];
        try discriminate.
      exists t. reflexivity.
Qed.

Lemma stored_required_fields_witness :
  Forall (fun k => nonempty_text (first_doc !! k)) enquiry_fields.
Proof.
  refine (proj1 (stored_required_fields Production test_runtime
                   (Some example_enquiry) (test_env 1 1000)
                   (start empty_store) first_doc) _).
  vm_compute. reflexivity.
Defined.

(** ** The newest record comes first *)

Lemma sorted_head (l : list Doc) x :
  StronglySorted createdAt_desc l -> x ∈ l ->
  (forall y, y ∈ l -> y <> x -> ~ createdAt_desc y x) ->
  exists rest, l = x :: rest.
Proof.
  intros Hs Hx Hn. destruct l as [|h t]; [inversion Hx|].
  destruct (decide (h = x)) as [-> | Hne]; [eauto|].
  exfalso. apply (Hn h); [apply list_elem_of_here | exact Hne |].
  apply StronglySorted_inv in Hs as [_ Hall].
  rewrite List.Forall_forall in Hall. apply Hall. apply list_elem_of_In.
  apply elem_of_cons in Hx as [Hx | Hx]; [congruence | exact Hx].
Qed.

Lemma merge_sort_newest_head (l : list Doc) d now :
  d !! "createdAt" = Some (BDate now) ->
  all_created_before now l ->
  exists rest, merge_sort createdAt_desc (l ++ [d]) = d :: rest.
Proof.
  intros Hd Hl. apply sorted_head.
  - apply (StronglySorted_merge_sort _).
  - rewrite merge_sort_Permutation. apply elem_of_app. right.
    apply list_elem_of_here.
  - intros y Hy Hne. rewrite merge_sort_Permutation in Hy.
    apply elem_of_app in Hy as [Hy | Hy].
    + apply created_earlier_not_desc. destruct (Hl y Hy) as (t & Ht & Hlt).
      exists t, now. repeat split; assumption.
    + apply list_elem_of_singleton in Hy. contradiction.
Qed.

Lemma post_enquiry_succeeds rt (b : Body) env w :
  Forall (fun k => truthy (b !! k) = true) enquiry_fields ->
  validate Enquiry (Model_new rt Enquiry b env) = None ->
  store_answers env = true ->
  has_id (fields (Model_new rt Enquiry b env)) (enquiries (store w)) = false ->
  store (V1.post_enquiry rt (Some b) env w).2
  = push_doc Enquiries (fields (Model_new rt Enquiry b env)) (store w)
  /\ store (V2.post_enquiry rt (Some b) env w).2
     = push_doc Enquiries (fields (Model_new rt Enquiry b env)) (store w).
Proof.
  intros Hall Hv Ha Hi.
  destruct (post_enquiry_saves rt b env w Hall) as [H1 H2].
  split.
  - destruct H1 as [(e & Hv' & _) | [(_ & Hf & _) | (_ & _ & _ & _ & S & _)]].
    + rewrite Hv in Hv'. discriminate.
    + cbn in Hf. destruct Hf; congruence.
    + exact S.
  - destruct H2 as [(e & Hv' & _) | [(_ & Hf & _) | (_ & _ & _ & _ & S & _)]].
    + rewrite Hv in Hv'. discriminate.
    + cbn in Hf. destruct Hf; congruence.
    + exact S.
Qed.

(** X6: the newest enquiry is listed first.  When a valid enquiry whose
    body carries no [createdAt] is stored at a time later than the
    [createdAt] date of every enquiry already in the collection, a
    following [GET /api/enquiries] returns the new record first in [data],
    in either variant. *)
Theorem newest_enquiry_listed_first rt (b : Body) env w :
  Forall (fun k => truthy (b !! k) = true) enquiry_fields ->
  validate Enquiry (Model_new rt Enquiry b env) = None ->
  store_answers env = true ->
  has_id (fields (Model_new rt Enquiry b env)) (enquiries (store w)) = false ->
  b !! "createdAt" = None ->
  all_created_before (Date_now env) (enquiries (store w)) ->
  created_and_listed_first (V1.post_enquiry rt (Some b) env) V1.get_enquiries
    (fields (Model_new rt Enquiry b env)) w
  /\ created_and_listed_first (V2.post_enquiry rt (Some b) env)
       V2.get_enquiries (fields (Model_new rt Enquiry b env)) w.
Proof.
  intros Hall Hv Ha Hi Hc Hb.
  destruct (post_enquiry_succeeds rt b env w Hall Hv Ha Hi) as [S1 S2].
  destruct (enquiry_server_assigned rt b env) as (b' & [= <-] & _ & Hnow).
  specialize (Hnow Hc).
  destruct (merge_sort_newest_head _ _ _ Hnow Hb) as (rest & Hrest).
  unfold created_and_listed_first.
  split; (split; [assumption|]); intros env' Ha'; exists rest.
  - rewrite (proj1 (get_enquiries_answered env' _ Ha')), S1. cbn.
    rewrite Hrest. reflexivity.
  - rewrite (proj2 (get_enquiries_answered env' _ Ha')), S2. cbn.
    rewrite Hrest. reflexivity.
Qed.

Lemma newest_enquiry_listed_first_witness :
  created_and_listed_first
    (V1.post_enquiry test_runtime (Some example_enquiry) (test_env 3 3000))
    V1.get_enquiries
    (fields (Model_new test_runtime Enquiry example_enquiry (test_env 3 3000)))
    after_second.
Proof.
  refine (proj1 (newest_enquiry_listed_first test_runtime example_enquiry
                   (test_env 3 3000) after_second _ _ _ _ _ _)).
  - unfold enquiry_fields. repeat constructor.
  - vm_compute. reflexivity.
  - reflexivity.
  - vm_compute. reflexivity.
  - reflexivity.
  - intros d Hd.
    assert (E : enquiries (store after_second) = [first_doc; second_doc])
      by (vm_compute; reflexivity).
    rewrite E in Hd.
    apply elem_of_cons in Hd as [-> | Hd];
      [exists 1000; split; [reflexivity | cbn; lia]|].
    apply list_elem_of_singleton in Hd as ->.
    exists 0. split; [reflexivity | cbn; lia].
Defined.
